(** * The embedding-network how-to guide of [sbi], as data and as code

    The artifact under study is [docs/how_to_guide/04_embedding_networks.ipynb],
    a Jupyter notebook (nbformat 4).  This development embeds

    - the file as it is stored (its lines of JSON text),
    - the notebook it encodes (cells, metadata, format numbers) together with
      the JSON writer that lays a notebook out in lines,
    - the Python snippets fenced in its markdown cells, with a tokenizer and a
      recursive-descent parser for the fragment of Python they are written in,
    - the tensor operations the [CustomCNN] snippet calls ([view], [Conv2d],
      [MaxPool2d], [Linear], [relu]) over an abstract scalar type,

    and states the properties of the guide over these definitions. *)

From Stdlib Require Import List String Ascii ZArith Bool Arith Lia DecimalString.
Import ListNotations.
Set Warnings "-register-all".
Local Open Scope string_scope.
Local Open Scope list_scope.

(** String concatenation; [++] is kept for lists. *)
Infix "+++" := String.append (right associativity, at level 60).

(** ** Text helpers *)

Module Text.

Definition dquote_char : ascii := ascii_of_nat 34.
Definition newline_char : ascii := ascii_of_nat 10.
Definition backslash_char : ascii := ascii_of_nat 92.

(** The notebook text uses no apostrophe; string literals below are written
    with an apostrophe wherever the file has a double quote, and [dq] puts
    the double quotes back. *)
Fixpoint dq (s : string) : string :=
  match s with
  | EmptyString => EmptyString
  | String c r => String (if Ascii.eqb c "'" then dquote_char else c) (dq r)
  end.

(** A source line of a cell that ends with a line feed. *)
Definition ln (s : string) : string := dq s +++ String newline_char EmptyString.

Fixpoint spaces (n : nat) : string :=
  match n with
  | O => EmptyString
  | S k => String " " (spaces k)
  end.

Fixpoint starts_with (p s : string) : bool :=
  match p, s with
  | EmptyString, _ => true
  | String a p', String b s' => Ascii.eqb a b && starts_with p' s'
  | String _ _, EmptyString => false
  end.

Fixpoint contains (p s : string) : bool :=
  starts_with p s ||
  match s with
  | EmptyString => false
  | String _ r => contains p r
  end.

Definition lower_char (c : ascii) : ascii :=
  let n := nat_of_ascii c in
  if Nat.leb 65 n && Nat.leb n 90 then ascii_of_nat (n + 32) else c.

Fixpoint lower (s : string) : string :=
  match s with
  | EmptyString => EmptyString
  | String c r => String (lower_char c) (lower r)
  end.

(** [mentions w s]: the word [w] (given in lower case) occurs in [s],
    whatever the case of the letters of [s]. *)
Definition mentions (w s : string) : bool := contains w (lower s).

Definition mentions_any (ws : list string) (s : string) : bool :=
  existsb (fun w => mentions w s) ws.

Definition ends_with (p s : string) : bool :=
  let n := String.length s in
  let k := String.length p in
  Nat.leb k n && String.eqb (substring (n - k) k s) p.

Definition string_of_Z (z : Z) : string := NilZero.string_of_int (Z.to_int z).

End Text.

Import Text.

(** ** JSON values and the layout nbformat writes (indent of one space) *)

Module Json.

Inductive json : Type :=
| JStr (s : string)
| JNum (z : Z)
| JArr (xs : list json)
| JObj (kvs : list (string * json)).

(** Escapes of a JSON string: double quote, backslash and line feed (the
    only characters of this notebook that need one). *)
Fixpoint escape (s : string) : string :=
  match s with
  | EmptyString => EmptyString
  | String c r =>
      if Ascii.eqb c dquote_char then String backslash_char (String dquote_char (escape r))
      else if Ascii.eqb c backslash_char then String backslash_char (String backslash_char (escape r))
      else if Ascii.eqb c newline_char then String backslash_char (String "n" (escape r))
      else String c (escape r)
  end.

Definition quote (s : string) : string :=
  String dquote_char (escape s +++ String dquote_char EmptyString).

Definition indent_first (n : nat) (ls : list string) : list string :=
  match ls with
  | [] => []
  | l :: r => (spaces n +++ l) :: r
  end.

Definition keyed (n : nat) (k : string) (ls : list string) : list string :=
  match ls with
  | [] => []
  | l :: r => (spaces n +++ quote k +++ ": " +++ l) :: r
  end.

Fixpoint with_comma (ls : list string) : list string :=
  match ls with
  | [] => []
  | [l] => [l +++ ","]
  | l :: r => l :: with_comma r
  end.

(** [render ind j]: the lines of [j]; the first line carries no indentation
    (it follows a key or an item prefix), the others are indented in full. *)
Fixpoint render (ind : nat) (j : json) {struct j} : list string :=
  match j with
  | JStr s => [quote s]
  | JNum z => [string_of_Z z]
  | JArr xs =>
      match xs with
      | [] => ["[]"]
      | _ =>
          let fix items (l : list json) : list string :=
            match l with
            | [] => []
            | x :: r =>
                let here := indent_first (S ind) (render (S ind) x) in
                match r with
                | [] => here
                | _ => with_comma here ++ items r
                end
            end in
          "[" :: items xs ++ [spaces ind +++ "]"]
      end
  | JObj kvs =>
      match kvs with
      | [] => ["{}"]
      | _ =>
          let fix members (l : list (string * json)) : list string :=
            match l with
            | [] => []
            | (k, v) :: r =>
                let here := keyed (S ind) k (render (S ind) v) in
                match r with
                | [] => here
                | _ => with_comma here ++ members r
                end
            end in
          "{" :: members kvs ++ [spaces ind +++ "}"]
      end
  end.

End Json.

Import Json.

(** ** The notebook *)

Module Notebook.

Record cell : Type := {
  cell_type : string;
  metadata : json;
  source : list string
}.

Record notebook : Type := {
  cells : list cell;
  notebook_metadata : json;
  nbformat : Z;
  nbformat_minor : Z
}.

Definition cell_to_json (c : cell) : json :=
  JObj [("cell_type", JStr (cell_type c));
        ("metadata", metadata c);
        ("source", JArr (map JStr (source c)))].

Definition to_json (nb : notebook) : json :=
  JObj [("cells", JArr (map cell_to_json (cells nb)));
        ("metadata", notebook_metadata nb);
        ("nbformat", JNum (nbformat nb));
        ("nbformat_minor", JNum (nbformat_minor nb))].

(** The lines nbformat writes for a notebook. *)
Definition write (nb : notebook) : list string := render 0 (to_json nb).

(** A cell is executed by a kernel only when it is a code cell. *)
Definition is_code (c : cell) : bool := String.eqb (cell_type c) "code".
Definition is_markdown (c : cell) : bool := String.eqb (cell_type c) "markdown".
Definition code_cells (nb : notebook) : list cell := filter is_code (cells nb).

(** *** The cells of 04_embedding_networks.ipynb *)

Definition cell_0 : cell :=
  {| cell_type := "markdown";
     metadata := JObj [];
     source := [
       dq "# How to use embedding nets for high-dimensional observations"
     ] |}.

Definition cell_1 : cell :=
  {| cell_type := "markdown";
     metadata := JObj [];
     source := [
       ln "Many simulators return high-dimensional outputs such as time-series or images. To efficiently learn the posterior given such simulation outputs, `sbi` can employ _embedding networks_ which reduce these high-dimensional outputs.";
       ln EmptyString;
       dq "`sbi` provides pre-configured embedding networks (MLP, CNN, and permutation-invariant networks) or allows to pass custom-written embedding networks."
     ] |}.

Definition cell_2 : cell :=
  {| cell_type := "markdown";
     metadata := JObj [];
     source := [
       dq "> Only `NPE` and `NRE` methods can use an `embedding_net` to learn summary statistics from simulation outputs. `NLE` does not offer such functionality because the simulation outputs are also the output of the neural density estimator. "
     ] |}.

Definition cell_3 : cell :=
  {| cell_type := "markdown";
     metadata := JObj [];
     source := [
       dq "## Using pre-configured embedding networks"
     ] |}.

Definition cell_4 : cell :=
  {| cell_type := "markdown";
     metadata := JObj [];
     source := [
       ln "```Python";
       ln "# import required modules";
       ln "from sbi.neural_nets import posterior_nn";
       ln EmptyString;
       ln "# import the different choices of pre-configured embedding networks";
       ln "from sbi.neural_nets.embedding_nets import (";
       ln "    FCEmbedding,";
       ln "    CNNEmbedding,";
       ln "    PermutationInvariantEmbedding";
       ln ")";
       ln EmptyString;
       ln "# Choose which type of pre-configured embedding net to use (e.g. CNN)";
       ln "embedding_net = CNNEmbedding(input_shape=(32, 32))";
       ln EmptyString;
       ln "# Instantiate the conditional neural density estimator";
       ln "neural_posterior = posterior_nn(model='maf', embedding_net=embedding_net)";
       ln EmptyString;
       ln "# Setup the inference procedure with NPE";
       ln "trainer = NPE(density_estimator=neural_posterior)";
       ln "# Continue as always...";
       dq "```"
     ] |}.

Definition cell_5 : cell :=
  {| cell_type := "markdown";
     metadata := JObj [];
     source := [
       ln "## Defining custom embedding networks";
       ln EmptyString;
       dq "Alternatively, it is also possible to define custom embedding networks and pass those to neural density estimator. For example, you can implement a custom CNN as follows:"
     ] |}.

Definition cell_6 : cell :=
  {| cell_type := "markdown";
     metadata := JObj [];
     source := [
       ln "```python";
       ln "class CustomCNN(nn.Module):";
       ln "    def __init__(self):";
       ln "        super().__init__()";
       ln "        # 2D convolutional layer";
       ln "        self.conv1 = nn.Conv2d(in_channels=1, out_channels=6, kernel_size=5, padding=2)";
       ln "        # Maxpool layer that reduces 32x32 image to 4x4";
       ln "        self.pool = nn.MaxPool2d(kernel_size=8, stride=8)";
       ln "        # Fully connected layer taking as input the 6 flattened output arrays";
       ln "        # from the maxpooling layer";
       ln "        self.fc = nn.Linear(in_features=6 * 4 * 4, out_features=8)";
       ln EmptyString;
       ln "    def forward(self, x):";
       ln "        x = x.view(-1, 1, 32, 32)";
       ln "        x = self.pool(F.relu(self.conv1(x)))";
       ln "        x = x.view(-1, 6 * 4 * 4)";
       ln "        x = F.relu(self.fc(x))";
       ln "        return x";
       ln EmptyString;
       ln "# instantiate the custom embedding_net";
       ln "embedding_net_custom = CustomCNN()";
       ln EmptyString;
       ln "# Instantiate the conditional neural density estimator";
       ln "neural_posterior = posterior_nn(model='maf', embedding_net=embedding_net_custom)";
       ln "trainer = NPE(density_estimator=neural_posterior)";
       ln "# Continue as always...";
       dq "```"
     ] |}.

Definition cell_7 : cell :=
  {| cell_type := "markdown";
     metadata := JObj [];
     source := [
       ln "## Example: Inferring parameters from images";
       ln EmptyString;
       dq "For a full example on using embedding networks (on simulation outputs that are images), see [this tutorial](https://sbi.readthedocs.io/en/latest/advanced_tutorials/04_embedding_networks.html)."
     ] |}.

Definition embedding_networks : notebook :=
  {| cells := [cell_0; cell_1; cell_2; cell_3; cell_4; cell_5; cell_6; cell_7];
     notebook_metadata :=
       JObj [("kernelspec",
              JObj [("display_name", JStr "Python 3 (ipykernel)");
                    ("language", JStr "python");
                    ("name", JStr "python3")]);
             ("language_info",
              JObj [("codemirror_mode",
                     JObj [("name", JStr "ipython"); ("version", JNum 3)]);
                    ("file_extension", JStr ".py");
                    ("mimetype", JStr "text/x-python");
                    ("name", JStr "python");
                    ("nbconvert_exporter", JStr "python");
                    ("pygments_lexer", JStr "ipython3");
                    ("version", JStr "3.12.4")])];
     nbformat := 4;
     nbformat_minor := 4 |}.

(** *** The file as stored: its lines, in order *)

Definition raw_lines : list string := map dq [
  "{";
  " 'cells': [";
  "  {";
  "   'cell_type': 'markdown',";
  "   'metadata': {},";
  "   'source': [";
  "    '# How to use embedding nets for high-dimensional observations'";
  "   ]";
  "  },";
  "  {";
  "   'cell_type': 'markdown',";
  "   'metadata': {},";
  "   'source': [";
  "    'Many simulators return high-dimensional outputs such as time-series or images. To efficiently learn the posterior given such simulation outputs, `sbi` can employ _embedding networks_ which reduce these high-dimensional outputs.\n',";
  "    '\n',";
  "    '`sbi` provides pre-configured embedding networks (MLP, CNN, and permutation-invariant networks) or allows to pass custom-written embedding networks.'";
  "   ]";
  "  },";
  "  {";
  "   'cell_type': 'markdown',";
  "   'metadata': {},";
  "   'source': [";
  "    '> Only `NPE` and `NRE` methods can use an `embedding_net` to learn summary statistics from simulation outputs. `NLE` does not offer such functionality because the simulation outputs are also the output of the neural density estimator. '";
  "   ]";
  "  },";
  "  {";
  "   'cell_type': 'markdown',";
  "   'metadata': {},";
  "   'source': [";
  "    '## Using pre-configured embedding networks'";
  "   ]";
  "  },";
  "  {";
  "   'cell_type': 'markdown',";
  "   'metadata': {},";
  "   'source': [";
  "    '```Python\n',";
  "    '# import required modules\n',";
  "    'from sbi.neural_nets import posterior_nn\n',";
  "    '\n',";
  "    '# import the different choices of pre-configured embedding networks\n',";
  "    'from sbi.neural_nets.embedding_nets import (\n',";
  "    '    FCEmbedding,\n',";
  "    '    CNNEmbedding,\n',";
  "    '    PermutationInvariantEmbedding\n',";
  "    ')\n',";
  "    '\n',";
  "    '# Choose which type of pre-configured embedding net to use (e.g. CNN)\n',";
  "    'embedding_net = CNNEmbedding(input_shape=(32, 32))\n',";
  "    '\n',";
  "    '# Instantiate the conditional neural density estimator\n',";
  "    'neural_posterior = posterior_nn(model=\'maf\', embedding_net=embedding_net)\n',";
  "    '\n',";
  "    '# Setup the inference procedure with NPE\n',";
  "    'trainer = NPE(density_estimator=neural_posterior)\n',";
  "    '# Continue as always...\n',";
  "    '```'";
  "   ]";
  "  },";
  "  {";
  "   'cell_type': 'markdown',";
  "   'metadata': {},";
  "   'source': [";
  "    '## Defining custom embedding networks\n',";
  "    '\n',";
  "    'Alternatively, it is also possible to define custom embedding networks and pass those to neural density estimator. For example, you can implement a custom CNN as follows:'";
  "   ]";
  "  },";
  "  {";
  "   'cell_type': 'markdown',";
  "   'metadata': {},";
  "   'source': [";
  "    '```python\n',";
  "    'class CustomCNN(nn.Module):\n',";
  "    '    def __init__(self):\n',";
  "    '        super().__init__()\n',";
  "    '        # 2D convolutional layer\n',";
  "    '        self.conv1 = nn.Conv2d(in_channels=1, out_channels=6, kernel_size=5, padding=2)\n',";
  "    '        # Maxpool layer that reduces 32x32 image to 4x4\n',";
  "    '        self.pool = nn.MaxPool2d(kernel_size=8, stride=8)\n',";
  "    '        # Fully connected layer taking as input the 6 flattened output arrays\n',";
  "    '        # from the maxpooling layer\n',";
  "    '        self.fc = nn.Linear(in_features=6 * 4 * 4, out_features=8)\n',";
  "    '\n',";
  "    '    def forward(self, x):\n',";
  "    '        x = x.view(-1, 1, 32, 32)\n',";
  "    '        x = self.pool(F.relu(self.conv1(x)))\n',";
  "    '        x = x.view(-1, 6 * 4 * 4)\n',";
  "    '        x = F.relu(self.fc(x))\n',";
  "    '        return x\n',";
  "    '\n',";
  "    '# instantiate the custom embedding_net\n',";
  "    'embedding_net_custom = CustomCNN()\n',";
  "    '\n',";
  "    '# Instantiate the conditional neural density estimator\n',";
  "    'neural_posterior = posterior_nn(model=\'maf\', embedding_net=embedding_net_custom)\n',";
  "    'trainer = NPE(density_estimator=neural_posterior)\n',";
  "    '# Continue as always...\n',";
  "    '```'";
  "   ]";
  "  },";
  "  {";
  "   'cell_type': 'markdown',";
  "   'metadata': {},";
  "   'source': [";
  "    '## Example: Inferring parameters from images\n',";
  "    '\n',";
  "    'For a full example on using embedding networks (on simulation outputs that are images), see [this tutorial](https://sbi.readthedocs.io/en/latest/advanced_tutorials/04_embedding_networks.html).'";
  "   ]";
  "  }";
  " ],";
  " 'metadata': {";
  "  'kernelspec': {";
  "   'display_name': 'Python 3 (ipykernel)',";
  "   'language': 'python',";
  "   'name': 'python3'";
  "  },";
  "  'language_info': {";
  "   'codemirror_mode': {";
  "    'name': 'ipython',";
  "    'version': 3";
  "   },";
  "   'file_extension': '.py',";
  "   'mimetype': 'text/x-python',";
  "   'name': 'python',";
  "   'nbconvert_exporter': 'python',";
  "   'pygments_lexer': 'ipython3',";
  "   'version': '3.12.4'";
  "  }";
  " },";
  " 'nbformat': 4,";
  " 'nbformat_minor': 4";
  "}"
].

(** The supplied source tree: paths below the repository root, each with
    its lines. *)
Definition source_tree : list (string * list string) :=
  [("docs/how_to_guide/04_embedding_networks.ipynb", raw_lines)].

End Notebook.

Import Notebook.


(** ** Fenced code of markdown cells *)

Module Markdown.

(** A source line without its final line feed. *)
Fixpoint chomp (s : string) : string :=
  match s with
  | EmptyString => EmptyString
  | String c r =>
      match r with
      | EmptyString => if Ascii.eqb c newline_char then EmptyString else s
      | _ => String c (chomp r)
      end
  end.

Definition is_fence (s : string) : bool := starts_with "```" s.

Record fenced : Type := {
  info : string;        (* what follows the opening fence, e.g. the language *)
  code : list string    (* the lines between the fences *)
}.

(** [fences cur ls]: the fenced blocks of the lines [ls]; [cur] is the block
    being read, if a fence is open.  A block still open at the end of the
    cell runs to the end. *)
Fixpoint fences (cur : option fenced) (ls : list string) : list fenced :=
  match ls with
  | [] => match cur with Some b => [b] | None => [] end
  | l :: r =>
      let l' := chomp l in
      match cur with
      | None =>
          if is_fence l'
          then fences (Some {| info := substring 3 (String.length l' - 3) l'; code := [] |}) r
          else fences None r
      | Some b =>
          if is_fence l'
          then b :: fences None r
          else fences (Some {| info := info b; code := code b ++ [l'] |}) r
      end
  end.

Definition cell_snippets (c : cell) : list fenced :=
  if is_markdown c then fences None (source c) else [].

Definition snippets (nb : notebook) : list fenced := flat_map cell_snippets (cells nb).

End Markdown.

Import Markdown.

(** ** The Python of the snippets: tokens *)

Module Tokenize.

Inductive token : Type :=
| NAME (s : string)
| KEYWORD (s : string)
| NUMBER (z : Z)
| STRING (s : string)
| OP (s : string)
| NEWLINE
| INDENT
| DEDENT.

Definition kwlist : list string :=
  ["False"; "None"; "True"; "and"; "as"; "assert"; "async"; "await"; "break";
   "class"; "continue"; "def"; "del"; "elif"; "else"; "except"; "finally";
   "for"; "from"; "global"; "if"; "import"; "in"; "is"; "lambda"; "nonlocal";
   "not"; "or"; "pass"; "raise"; "return"; "try"; "while"; "with"; "yield"].

Definition mem (s : string) (l : list string) : bool := existsb (String.eqb s) l.

Definition iskeyword (s : string) : bool := mem s kwlist.

Definition between (lo hi : nat) (c : ascii) : bool :=
  let n := nat_of_ascii c in Nat.leb lo n && Nat.leb n hi.

Definition is_digit (c : ascii) : bool := between 48 57 c.
Definition is_ident_start (c : ascii) : bool :=
  between 65 90 c || between 97 122 c || Ascii.eqb c "_".
Definition is_ident_char (c : ascii) : bool := is_ident_start c || is_digit c.
Definition is_quote (c : ascii) : bool := Ascii.eqb c dquote_char || Ascii.eqb c "'".

(** The one-character operators and delimiters of the fragment. *)
Definition is_op_char (c : ascii) : bool :=
  existsb (Ascii.eqb c) ["("; ")"; ","; "."; "="; "*"; "+"; "-"; ":"]%char.

Fixpoint take_while (p : ascii -> bool) (s : string) : string * string :=
  match s with
  | EmptyString => (EmptyString, EmptyString)
  | String c r =>
      if p c then let (w, rest) := take_while p r in (String c w, rest)
      else (EmptyString, s)
  end.

Definition digit_value (c : ascii) : Z := Z.of_nat (nat_of_ascii c) - 48.

Fixpoint decimal (acc : Z) (s : string) : Z :=
  match s with
  | EmptyString => acc
  | String c r => decimal (10 * acc + digit_value c) r
  end.

(** The body of a string literal opened by [q], up to the closing quote on
    the same line; a backslash takes the next character with it. *)
Fixpoint string_body (q : ascii) (s : string) : option (string * string) :=
  match s with
  | EmptyString => None
  | String c r =>
      if Ascii.eqb c q then Some (EmptyString, r)
      else if Ascii.eqb c backslash_char then
        match r with
        | EmptyString => None
        | String d r' =>
            match string_body q r' with
            | Some (b, rest) => Some (String c (String d b), rest)
            | None => None
            end
        end
      else
        match string_body q r with
        | Some (b, rest) => Some (String c b, rest)
        | None => None
        end
  end.

Definition starts_ident_or_dot (s : string) : bool :=
  match s with
  | EmptyString => false
  | String c _ => is_ident_char c || Ascii.eqb c "."
  end.

(** The tokens of one physical line, comments dropped.  [None]: the line
    is outside the fragment (or is no Python at all). *)
Fixpoint scan (fuel : nat) (s : string) : option (list token) :=
  match fuel with
  | O => None
  | S f =>
      match s with
      | EmptyString => Some []
      | String c r =>
          if Ascii.eqb c " " then scan f r
          else if Ascii.eqb c "#" then Some []
          else if is_ident_start c then
            let (w, rest) := take_while is_ident_char s in
            if String.eqb w "__debug__" then None
            else
              match scan f rest with
              | Some ts => Some ((if iskeyword w then KEYWORD w else NAME w) :: ts)
              | None => None
              end
          else if is_digit c then
            let (d, rest) := take_while is_digit s in
            if starts_ident_or_dot rest then None
            else if Ascii.eqb c "0" && negb (String.eqb d "0") then None
            else
              match scan f rest with
              | Some ts => Some (NUMBER (decimal 0 d) :: ts)
              | None => None
              end
          else if is_quote c then
            match string_body c r with
            | Some (b, rest) =>
                match scan f rest with
                | Some ts => Some (STRING b :: ts)
                | None => None
                end
            | None => None
            end
          else if is_op_char c then
            match scan f r with
            | Some ts => Some (OP (String c EmptyString) :: ts)
            | None => None
            end
          else None
      end
  end.

Definition scan_line (s : string) : option (list token) := scan (S (String.length s)) s.

Fixpoint indent_of (s : string) : nat * string :=
  match s with
  | String " " r => let (n, rest) := indent_of r in (S n, rest)
  | _ => (O, s)
  end.

Definition blank (rest : string) : bool :=
  match rest with
  | EmptyString => true
  | String c _ => Ascii.eqb c "#"
  end.

(** Nesting of parentheses after the tokens [ts], from nesting [d]. *)
Fixpoint depth_after (d : nat) (ts : list token) : option nat :=
  match ts with
  | [] => Some d
  | OP s :: r =>
      if String.eqb s "(" then depth_after (S d) r
      else if String.eqb s ")" then
        match d with
        | O => None
        | S d' => depth_after d' r
        end
      else depth_after d r
  | _ :: r => depth_after d r
  end.

(** Leaving blocks until the indentation [n] is found on the stack. *)
Fixpoint dedent_to (n : nat) (stack : list nat) : option (list token * list nat) :=
  match stack with
  | [] => None
  | top :: below =>
      if Nat.eqb n top then Some ([], stack)
      else if Nat.ltb n top then
        match dedent_to n below with
        | Some (ds, st) => Some (DEDENT :: ds, st)
        | None => None
        end
      else None
  end.

Definition enter_line (n : nat) (stack : list nat) : option (list token * list nat) :=
  match stack with
  | [] => None
  | top :: _ => if Nat.ltb top n then Some ([INDENT], n :: stack) else dedent_to n stack
  end.

(** The token stream of the lines [ls]: [stack] holds the indentations of
    the open blocks (innermost first), [depth] the open parentheses. Inside
    parentheses lines are joined and indentation is not significant. *)
Fixpoint tokenize_from (stack : list nat) (depth : nat) (ls : list string)
  : option (list token) :=
  match ls with
  | [] =>
      match depth with
      | O => Some (map (fun _ => DEDENT) (removelast stack))
      | S _ => None
      end
  | l :: r =>
      match depth with
      | O =>
          let (n, rest) := indent_of l in
          if blank rest then tokenize_from stack depth r
          else
            match scan_line rest, enter_line n stack with
            | Some ts, Some (pre, stack') =>
                match depth_after 0 ts with
                | Some d =>
                    match tokenize_from stack' d r with
                    | Some more =>
                        Some (pre ++ ts ++ (match d with O => [NEWLINE] | S _ => [] end) ++ more)
                    | None => None
                    end
                | None => None
                end
            | _, _ => None
            end
      | S _ =>
          match scan_line l with
          | Some ts =>
              match depth_after depth ts with
              | Some d =>
                  match tokenize_from stack d r with
                  | Some more =>
                      Some (ts ++ (match d with O => [NEWLINE] | S _ => [] end) ++ more)
                  | None => None
                  end
              | None => None
              end
          | None => None
          end
      end
  end.

Definition tokenize (ls : list string) : option (list token) := tokenize_from [O] O ls.

End Tokenize.

Import Tokenize.

(** ** The Python of the snippets: syntax trees and the parser *)

Module Ast.

Inductive operator : Type := Add | Sub | Mult.
Inductive unaryop : Type := USub | UAdd.

Inductive expr : Type :=
| Name (id : string)
| Num (n : Z)
| Str (s : string)
| Attribute (value : expr) (attr : string)
| Call (func : expr) (args : list expr) (keywords : list (string * expr))
| Tuple (elts : list expr)
| BinOp (left : expr) (op : operator) (right : expr)
| UnaryOp (op : unaryop) (operand : expr).

Inductive stmt : Type :=
| ImportFrom (modname : list string) (names : list string)
| Assign (target : expr) (value : expr)
| Expr (value : expr)
| Return (value : option expr)
| Pass
| ClassDef (name : string) (bases : list expr) (keywords : list (string * expr))
           (body : list stmt)
| FunctionDef (name : string) (params : list string) (body : list stmt).

End Ast.

Import Ast.

Module Parse.

Notation "' p <- c ;; k" :=
  (match c with Some p => k | None => None end)
    (at level 61, p pattern, c at next level, right associativity).

Definition is_op (s : string) (t : token) : bool :=
  match t with
  | OP o => String.eqb o s
  | _ => false
  end.

(** [expect s ts]: the tokens after the operator [s], which must come first. *)
Definition expect (s : string) (ts : list token) : option (list token) :=
  match ts with
  | t :: r => if is_op s t then Some r else None
  | [] => None
  end.

(** What may stand left of [=] in the fragment: a name or an attribute. *)
Definition is_target (e : expr) : bool :=
  match e with
  | Name _ | Attribute _ _ => true
  | _ => false
  end.

(** Expressions.
<<
    expression := term (('+' | '-') term)*
    term       := factor ('*' factor)*
    factor     := ('-' | '+') factor | primary
    primary    := atom ('.' NAME | '(' arguments ')')*
    atom       := NAME | NUMBER | STRING | '(' ')' | '(' expression ')'
                | '(' expression ',' [expression (',' expression)* [',']] ')'
    arguments  := [argument (',' argument)* [',']]
    argument   := NAME '=' expression | expression
>>
    In [arguments], no positional argument follows a keyword argument and
    no keyword is repeated. *)
Fixpoint expression (fuel : nat) (ts : list token) {struct fuel}
  : option (expr * list token) :=
  match fuel with
  | O => None
  | S f => '(l, r) <- term f ts ;; expression_rest f l r
  end
with expression_rest (fuel : nat) (l : expr) (ts : list token) {struct fuel}
  : option (expr * list token) :=
  match fuel with
  | O => None
  | S f =>
      match ts with
      | OP o :: r =>
          if String.eqb o "+" then
            '(e, r') <- term f r ;; expression_rest f (BinOp l Add e) r'
          else if String.eqb o "-" then
            '(e, r') <- term f r ;; expression_rest f (BinOp l Sub e) r'
          else Some (l, ts)
      | _ => Some (l, ts)
      end
  end
with term (fuel : nat) (ts : list token) {struct fuel}
  : option (expr * list token) :=
  match fuel with
  | O => None
  | S f => '(l, r) <- factor f ts ;; term_rest f l r
  end
with term_rest (fuel : nat) (l : expr) (ts : list token) {struct fuel}
  : option (expr * list token) :=
  match fuel with
  | O => None
  | S f =>
      match ts with
      | OP o :: r =>
          if String.eqb o "*" then
            '(e, r') <- factor f r ;; term_rest f (BinOp l Mult e) r'
          else Some (l, ts)
      | _ => Some (l, ts)
      end
  end
with factor (fuel : nat) (ts : list token) {struct fuel}
  : option (expr * list token) :=
  match fuel with
  | O => None
  | S f =>
      match ts with
      | OP o :: r =>
          if String.eqb o "-" then
            '(e, r') <- factor f r ;; Some (UnaryOp USub e, r')
          else if String.eqb o "+" then
            '(e, r') <- factor f r ;; Some (UnaryOp UAdd e, r')
          else primary f ts
      | _ => primary f ts
      end
  end
with primary (fuel : nat) (ts : list token) {struct fuel}
  : option (expr * list token) :=
  match fuel with
  | O => None
  | S f => '(a, r) <- atom f ts ;; trailers f a r
  end
with trailers (fuel : nat) (e : expr) (ts : list token) {struct fuel}
  : option (expr * list token) :=
  match fuel with
  | O => None
  | S f =>
      match ts with
      | OP o :: r =>
          if String.eqb o "." then
            match r with
            | NAME a :: r' => trailers f (Attribute e a) r'
            | _ => None
            end
          else if String.eqb o "(" then
            '(pos, kws, r') <- arguments f [] [] r ;;
            trailers f (Call e pos kws) r'
          else Some (e, ts)
      | _ => Some (e, ts)
      end
  end
with atom (fuel : nat) (ts : list token) {struct fuel}
  : option (expr * list token) :=
  match fuel with
  | O => None
  | S f =>
      match ts with
      | NAME x :: r => Some (Name x, r)
      | NUMBER n :: r => Some (Num n, r)
      | STRING s :: r => Some (Str s, r)
      | OP o :: r =>
          if String.eqb o "(" then
            match r with
            | t :: r0 =>
                if is_op ")" t then Some (Tuple [], r0)
                else
                  '(e, r1) <- expression f r ;;
                  match r1 with
                  | t1 :: r2 =>
                      if is_op ")" t1 then Some (e, r2)
                      else if is_op "," t1 then
                        '(es, r3) <- elements f [e] r2 ;; Some (Tuple es, r3)
                      else None
                  | [] => None
                  end
            | [] => None
            end
          else None
      | _ => None
      end
  end
with elements (fuel : nat) (acc : list expr) (ts : list token) {struct fuel}
  : option (list expr * list token) :=
  match fuel with
  | O => None
  | S f =>
      match ts with
      | t :: r =>
          if is_op ")" t then Some (acc, r)
          else
            '(e, r1) <- expression f ts ;;
            match r1 with
            | t1 :: r2 =>
                if is_op ")" t1 then Some (acc ++ [e], r2)
                else if is_op "," t1 then elements f (acc ++ [e]) r2
                else None
            | [] => None
            end
      | [] => None
      end
  end
with arguments (fuel : nat) (pos : list expr) (kws : list (string * expr))
               (ts : list token) {struct fuel}
  : option (list expr * list (string * expr) * list token) :=
  match fuel with
  | O => None
  | S f =>
      match ts with
      | [] => None
      | t :: r =>
          if is_op ")" t then Some (pos, kws, r)
          else
            match t, r with
            | NAME k, OP o :: r0 =>
                if String.eqb o "=" then
                  if mem k (map fst kws) then None
                  else
                    '(v, r1) <- expression f r0 ;;
                    arguments_next f pos (kws ++ [(k, v)]) r1
                else positional f pos kws ts
            | _, _ => positional f pos kws ts
            end
      end
  end
with positional (fuel : nat) (pos : list expr) (kws : list (string * expr))
                (ts : list token) {struct fuel}
  : option (list expr * list (string * expr) * list token) :=
  match fuel with
  | O => None
  | S f =>
      match kws with
      | [] => '(v, r1) <- expression f ts ;; arguments_next f (pos ++ [v]) kws r1
      | _ :: _ => None
      end
  end
with arguments_next (fuel : nat) (pos : list expr) (kws : list (string * expr))
                    (ts : list token) {struct fuel}
  : option (list expr * list (string * expr) * list token) :=
  match fuel with
  | O => None
  | S f =>
      match ts with
      | t :: r =>
          if is_op ")" t then Some (pos, kws, r)
          else if is_op "," t then arguments f pos kws r
          else None
      | [] => None
      end
  end.

(** [dotted_name := NAME ('.' NAME)*] *)
Fixpoint dotted_rest (fuel : nat) (acc : list string) (ts : list token)
  : option (list string * list token) :=
  match fuel with
  | O => None
  | S f =>
      match ts with
      | OP o :: NAME x :: r =>
          if String.eqb o "." then dotted_rest f (acc ++ [x]) r else Some (acc, ts)
      | _ => Some (acc, ts)
      end
  end.

Definition dotted_name (fuel : nat) (ts : list token) : option (list string * list token) :=
  match ts with
  | NAME x :: r => dotted_rest fuel [x] r
  | _ => None
  end.

(** [NAME (',' NAME)*] with no name twice; when [closed], a final comma may
    come before the closing parenthesis, which is consumed. *)
Fixpoint name_list (fuel : nat) (closed : bool) (acc : list string) (ts : list token)
  : option (list string * list token) :=
  match fuel with
  | O => None
  | S f =>
      match ts with
      | NAME x :: r =>
          if mem x acc then None
          else
            match r with
            | t :: r' =>
                if is_op "," t then
                  match r' with
                  | t' :: r'' =>
                      if closed && is_op ")" t' then Some (acc ++ [x], r'')
                      else name_list f closed (acc ++ [x]) r'
                  | [] => None
                  end
                else if closed then
                  if is_op ")" t then Some (acc ++ [x], r') else None
                else Some (acc ++ [x], r)
            | [] => if closed then None else Some (acc ++ [x], r)
            end
      | _ => None
      end
  end.

(** [import_from := 'from' dotted_name 'import' (names | '(' names [','] ')')] *)
Definition import_from (fuel : nat) (ts : list token) : option (stmt * list token) :=
  '(m, r) <- dotted_name fuel ts ;;
  if mem "__future__" m then None
  else
    match r with
    | KEYWORD k :: r1 =>
        if String.eqb k "import" then
          match r1 with
          | t :: r2 =>
              if is_op "(" t then
                '(ns, r3) <- name_list fuel true [] r2 ;; Some (ImportFrom m ns, r3)
              else
                '(ns, r3) <- name_list fuel false [] r1 ;; Some (ImportFrom m ns, r3)
          | [] => None
          end
        else None
    | _ => None
    end.

(** Simple statements, up to the end of the logical line.  [in_func]:
    the statement stands in the body of a function ([return] is allowed). *)
Definition simple_stmt (fuel : nat) (in_func : bool) (ts : list token)
  : option (stmt * list token) :=
  match ts with
  | KEYWORD k :: r =>
      if String.eqb k "pass" then Some (Pass, r)
      else if String.eqb k "return" then
        if in_func then
          match r with
          | NEWLINE :: _ => Some (Return None, r)
          | _ => '(e, r1) <- expression fuel r ;; Some (Return (Some e), r1)
          end
        else None
      else if String.eqb k "from" then import_from fuel r
      else None
  | _ =>
      '(e, r1) <- expression fuel ts ;;
      match r1 with
      | OP o :: r2 =>
          if String.eqb o "=" then
            if is_target e then
              '(v, r3) <- expression fuel r2 ;; Some (Assign e v, r3)
            else None
          else Some (Expr e, r1)
      | _ => Some (Expr e, r1)
      end
  end.

Definition simple_line (fuel : nat) (in_func : bool) (ts : list token)
  : option (stmt * list token) :=
  '(s, r1) <- simple_stmt fuel in_func ts ;;
  match r1 with
  | NEWLINE :: r2 => Some (s, r2)
  | _ => None
  end.

(** Statements.
<<
    statement  := simple_stmt NEWLINE
                | 'class' NAME ['(' arguments ')'] ':' block
                | 'def' NAME '(' [NAME (',' NAME)* [',']] ')' ':' block
    block      := NEWLINE INDENT statement+ DEDENT
>> *)
Fixpoint statement (fuel : nat) (in_func : bool) (ts : list token) {struct fuel}
  : option (stmt * list token) :=
  match fuel with
  | O => None
  | S f =>
      match ts with
      | KEYWORD k :: NAME n :: r =>
          if String.eqb k "class" then
            '(pos, kws, r1) <-
               (match r with
                | OP o :: r0 =>
                    if String.eqb o "(" then arguments f [] [] r0 else Some ([], [], r)
                | _ => Some ([], [], r)
                end) ;;
            '(r2) <- expect ":" r1 ;;
            '(b, r3) <- block f false r2 ;;
            Some (ClassDef n pos kws b, r3)
          else if String.eqb k "def" then
            '(r0) <- expect "(" r ;;
            '(ps, r1) <-
               (match r0 with
                | t :: r' => if is_op ")" t then Some ([], r') else name_list f true [] r0
                | [] => None
                end) ;;
            '(r2) <- expect ":" r1 ;;
            '(b, r3) <- block f true r2 ;;
            Some (FunctionDef n ps b, r3)
          else simple_line f in_func ts
      | _ => simple_line f in_func ts
      end
  end
with block (fuel : nat) (in_func : bool) (ts : list token) {struct fuel}
  : option (list stmt * list token) :=
  match fuel with
  | O => None
  | S f =>
      match ts with
      | NEWLINE :: INDENT :: r =>
          '(ss, r1) <- statements f in_func r ;;
          match ss, r1 with
          | _ :: _, DEDENT :: r2 => Some (ss, r2)
          | _, _ => None
          end
      | _ => None
      end
  end
with statements (fuel : nat) (in_func : bool) (ts : list token) {struct fuel}
  : option (list stmt * list token) :=
  match fuel with
  | O => None
  | S f =>
      match ts with
      | [] => Some ([], [])
      | DEDENT :: _ => Some ([], ts)
      | _ =>
          '(s, r) <- statement f in_func ts ;;
          '(ss, r') <- statements f in_func r ;;
          Some (s :: ss, r')
      end
  end.

(** A file is a sequence of statements that uses up all the tokens. *)
Definition file_input (ts : list token) : option (list stmt) :=
  '(ss, r) <- statements (16 * S (List.length ts)) false ts ;;
  match r with
  | [] => Some ss
  | _ :: _ => None
  end.

Definition parse (ls : list string) : option (list stmt) :=
  '(ts) <- tokenize ls ;; file_input ts.

End Parse.

Import Parse.

(** ** What a syntax tree refers to *)

Module Refs.

(** The source text of a callee: dotted names, with [()] after a call whose
    result is used further ([super().__init__]). *)
Fixpoint show (e : expr) : string :=
  match e with
  | Name x => x
  | Attribute v a => show v +++ "." +++ a
  | Call f _ _ => show f +++ "()"
  | Num n => string_of_Z n
  | Str s => s
  | Tuple _ => "(...)"
  | BinOp _ _ _ => "(...)"
  | UnaryOp _ _ => "(...)"
  end.

(** The callees of the calls of an expression: a call after the calls made
    to evaluate its callee and its arguments. *)
Fixpoint calls_expr (e : expr) : list string :=
  match e with
  | Name _ | Num _ | Str _ => []
  | Attribute v _ => calls_expr v
  | Call f args kws =>
      calls_expr f
        ++ flat_map calls_expr args
        ++ flat_map (fun kv => calls_expr (snd kv)) kws
        ++ [show f]
  | Tuple es => flat_map calls_expr es
  | BinOp l _ r => calls_expr l ++ calls_expr r
  | UnaryOp _ x => calls_expr x
  end.

(** The calls of a statement, bodies of classes and functions included. *)
Fixpoint calls_stmt (s : stmt) : list string :=
  match s with
  | ImportFrom _ _ | Pass | Return None => []
  | Assign t v => calls_expr t ++ calls_expr v
  | Expr v => calls_expr v
  | Return (Some v) => calls_expr v
  | ClassDef _ bases kws body =>
      flat_map calls_expr bases
        ++ flat_map (fun kv => calls_expr (snd kv)) kws
        ++ flat_map calls_stmt body
  | FunctionDef _ _ body => flat_map calls_stmt body
  end.

(** The calls a module makes when it is run: those of its own statements,
    not those inside the bodies of the functions it defines. *)
Definition module_calls (ss : list stmt) : list string :=
  flat_map (fun s =>
              match s with
              | Assign t v => calls_expr t ++ calls_expr v
              | Expr v => calls_expr v
              | _ => []
              end) ss.

Definition imported (ss : list stmt) : list string :=
  flat_map (fun s => match s with ImportFrom _ ns => ns | _ => [] end) ss.

Definition import_modules (ss : list stmt) : list string :=
  flat_map (fun s => match s with
                     | ImportFrom m _ => [String.concat "." m]
                     | _ => []
                     end) ss.

(** The classes a module defines, each with the source text of its bases. *)
Definition classes (ss : list stmt) : list (string * list string) :=
  flat_map (fun s => match s with
                     | ClassDef n bases _ _ => [(n, map show bases)]
                     | _ => []
                     end) ss.

(** The calls inside the bodies of the classes a module defines. *)
Definition class_body_calls (ss : list stmt) : list string :=
  flat_map (fun s => match s with
                     | ClassDef _ _ _ body => flat_map calls_stmt body
                     | _ => []
                     end) ss.

(** The names a module refers to in its own statements: what it imports,
    what it calls and the classes it defines. *)
Definition module_references (ss : list stmt) : list string :=
  imported ss ++ module_calls ss ++ map fst (classes ss).

(** Set equality of two lists of names. *)
Definition same_names (a b : list string) : bool :=
  forallb (fun x => mem x b) a && forallb (fun x => mem x a) b.

(** Looking definitions up. *)
Fixpoint find_class (n : string) (ss : list stmt) : option (list stmt) :=
  match ss with
  | [] => None
  | ClassDef m _ _ body :: r => if String.eqb m n then Some body else find_class n r
  | _ :: r => find_class n r
  end.

Fixpoint find_def (n : string) (ss : list stmt) : option (list string * list stmt) :=
  match ss with
  | [] => None
  | FunctionDef m ps body :: r =>
      if String.eqb m n then Some (ps, body) else find_def n r
  | _ :: r => find_def n r
  end.

(** The value assigned to [self.a] in a body. *)
Fixpoint find_attr (a : string) (ss : list stmt) : option expr :=
  match ss with
  | [] => None
  | Assign (Attribute (Name "self") b) v :: r =>
      if String.eqb a b then Some v else find_attr a r
  | _ :: r => find_attr a r
  end.

Fixpoint keyword (k : string) (kws : list (string * expr)) : option expr :=
  match kws with
  | [] => None
  | (k', v) :: r => if String.eqb k k' then Some v else keyword k r
  end.

(** The value of an integer expression made of literals. *)
Fixpoint const_int (e : expr) : option Z :=
  match e with
  | Num n => Some n
  | UnaryOp USub x => option_map Z.opp (const_int x)
  | UnaryOp UAdd x => const_int x
  | BinOp l o r =>
      match const_int l, const_int r with
      | Some a, Some b =>
          Some (match o with Add => a + b | Sub => a - b | Mult => a * b end)%Z
      | _, _ => None
      end
  | _ => None
  end.

(** The integer given for the keyword [k] in the call assigned to [self.a]. *)
Definition hyper (init_body : list stmt) (a k : string) : option Z :=
  match find_attr a init_body with
  | Some (Call _ _ kws) =>
      match keyword k kws with
      | Some e => const_int e
      | None => None
      end
  | _ => None
  end.

(** The constructor called to make [self.a]. *)
Definition layer_of (init_body : list stmt) (a : string) : option string :=
  match find_attr a init_body with
  | Some (Call f _ _) => Some (show f)
  | _ => None
  end.

(** A callee of [forward], with [self.a] replaced by the layer [__init__]
    makes for it. *)
Definition resolve (init_body : list stmt) (callee : string) : string :=
  if starts_with "self." callee then
    match layer_of init_body (substring 5 (String.length callee - 5) callee) with
    | Some l => l
    | None => callee
    end
  else callee.

End Refs.

Import Refs.

(** ** The snippets of the guide *)

(** The fenced blocks of the guide, their lines, and what the tokenizer and
    the parser make of them. *)
Definition guide_snippets : list fenced := snippets embedding_networks.

Definition snippet_lines : list (list string) :=
  Eval vm_compute in map code guide_snippets.

Definition snippet_tokens : list (option (list token)) := map tokenize snippet_lines.

Definition snippet_asts : list (option (list stmt)) := map parse snippet_lines.

(** The syntax trees of the two fragments (the empty list should one not
    parse; that both parse is proved below). *)
Definition first_ast : list stmt :=
  Eval vm_compute in match nth 0 snippet_asts None with Some a => a | None => [] end.

Definition second_ast : list stmt :=
  Eval vm_compute in match nth 1 snippet_asts None with Some a => a | None => [] end.

(** ** The tensor operations the CustomCNN snippet calls

    PyTorch is not part of the repository: the operations are defined here
    after its documented behaviour (the output sizes of [Conv2d] and
    [MaxPool2d], zero padding, the size inference of [view], [relu] and max
    pooling passing a NaN through).  Tensors are dense and contiguous: a shape
    and the elements in row-major order.  The element type is a parameter
    ([Scalar]), so that what is proved holds for exact numbers as well as for
    numbers with a NaN. *)

Module Torch.

Local Open Scope Z_scope.

Class Scalar (T : Type) : Type := {
  szero : T;
  sadd : T -> T -> T;
  smul : T -> T -> T;
  sltb : T -> T -> bool;     (* a < b *)
  sleb : T -> T -> bool;     (* a <= b *)
  sisnan : T -> bool
}.

(** What the comparisons with zero must satisfy: zero is at most and not
    below itself, and a value that is not below zero is NaN or at least
    zero. *)
Class ScalarOrder (T : Type) {S : Scalar T} : Prop := {
  sltb_zero_zero : sltb szero szero = false;
  sleb_zero_zero : sleb szero szero = true;
  not_below_zero : forall v : T, sltb v szero = false -> sisnan v = true \/ sleb szero v = true
}.

Record tensor (T : Type) : Type := {
  shape : list Z;
  data : list T
}.

Arguments shape {T} _.
Arguments data {T} _.

Definition numel_of (sh : list Z) : Z := fold_right Z.mul 1 sh.

Definition numel {T : Type} (t : tensor T) : Z := numel_of (shape t).

(** A tensor is well formed when its sizes are not negative and it holds as
    many elements as its shape says. *)
Definition wf {T : Type} (t : tensor T) : Prop :=
  Forall (fun d => 0 <= d) (shape t) /\ Z.of_nat (List.length (data t)) = numel t.

Definition item {T : Type} {S : Scalar T} (t : tensor T) (k : Z) : T :=
  nth (Z.to_nat k) (data t) szero.

(** The tensor of shape [sh] whose element at the flat index [k] is [f k]. *)
Definition tabulate {T : Type} (sh : list Z) (f : Z -> T) : tensor T :=
  {| shape := sh;
     data := map (fun k => f (Z.of_nat k)) (seq 0 (Z.to_nat (numel_of sh))) |}.

(** [fold_range n f acc]: [f (n-1) (... (f 1 (f 0 acc)))]. *)
Definition fold_range {A : Type} (n : Z) (f : Z -> A -> A) (acc : A) : A :=
  fold_left (fun a k => f (Z.of_nat k) a) (seq 0 (Z.to_nat n)) acc.

(** *** Tensor.view *)

(** The sizes [view] gives a tensor of [n] elements for the requested
    sizes [spec]: at most one size is -1 and is inferred from the others. *)
Definition infer_size (spec : list Z) (n : Z) : option (list Z) :=
  if existsb (fun d => d <? -1) spec then None
  else
    let p := numel_of (filter (fun d => negb (d =? -1)) spec) in
    match filter (fun d => d =? -1) spec with
    | [] => if p =? n then Some spec else None
    | [_] =>
        if p =? 0 then None
        else if n mod p =? 0
             then Some (map (fun d => if d =? -1 then n / p else d) spec)
             else None
    | _ => None
    end.

Definition view {T : Type} (t : tensor T) (spec : list Z) : option (tensor T) :=
  match infer_size spec (numel t) with
  | Some sh => Some {| shape := sh; data := data t |}
  | None => None
  end.

(** *** F.relu *)

Definition relu_scalar {T : Type} {S : Scalar T} (v : T) : T :=
  if sltb v szero then szero else v.

Definition relu {T : Type} {S : Scalar T} (t : tensor T) : tensor T :=
  {| shape := shape t; data := map relu_scalar (data t) |}.

(** *** nn.Conv2d (stride 1 unless given, zero padding, no dilation, one
    group, with bias), on a batch: an input of four dimensions *)

Module Conv2d.

Record t (T : Type) : Type := {
  in_channels : Z;
  out_channels : Z;
  kernel_size : Z;
  stride : Z;
  padding : Z;
  weight : Z -> Z -> Z -> Z -> T;    (* out channel, in channel, row, column *)
  bias : Z -> T
}.

Arguments in_channels {T} _.
Arguments out_channels {T} _.
Arguments kernel_size {T} _.
Arguments stride {T} _.
Arguments padding {T} _.
Arguments weight {T} _.
Arguments bias {T} _.

(** Output size along one axis:
    [floor ((h + 2 * padding - kernel_size) / stride) + 1]. *)
Definition out_size (h k p s : Z) : option Z :=
  if (s <=? 0) || (k <=? 0) || (p <? 0) || (h + 2 * p <? k) then None
  else Some ((h + 2 * p - k) / s + 1).

(** The input at row [y], column [x] of the zero-padded image. *)
Definition padded {T : Type} {S : Scalar T} (x : tensor T) (c h w : Z) (n i y0 x0 : Z) : T :=
  if (0 <=? y0) && (y0 <? h) && (0 <=? x0) && (x0 <? w)
  then item x (((n * c + i) * h + y0) * w + x0)
  else szero.

Definition forward {T : Type} {S : Scalar T} (m : t T) (x : tensor T)
  : option (tensor T) :=
  match shape x with
  | [n; c; h; w] =>
      if c =? in_channels m then
        match out_size h (kernel_size m) (padding m) (stride m),
              out_size w (kernel_size m) (padding m) (stride m) with
        | Some h', Some w' =>
            let oc := out_channels m in
            Some (tabulate [n; oc; h'; w']
                    (fun idx =>
                       let b := idx / (oc * h' * w') in
                       let o := (idx / (h' * w')) mod oc in
                       let y := (idx / w') mod h' in
                       let x' := idx mod w' in
                       fold_range c
                         (fun i acc =>
                            fold_range (kernel_size m)
                              (fun ky acc =>
                                 fold_range (kernel_size m)
                                   (fun kx acc =>
                                      sadd acc
                                        (smul (weight m o i ky kx)
                                           (padded x c h w b i
                                              (y * stride m + ky - padding m)
                                              (x' * stride m + kx - padding m))))
                                   acc)
                              acc)
                         (bias m o)))
        | _, _ => None
        end
      else None
  | _ => None
  end.

End Conv2d.

(** *** nn.MaxPool2d (no padding, no dilation, floor mode), on a batch: an
    input of four dimensions *)

Module MaxPool2d.

Record t : Type := {
  kernel_size : Z;
  stride : Z
}.

(** Output size along one axis: [floor ((h - kernel_size) / stride) + 1]. *)
Definition out_size (h k s : Z) : option Z :=
  if (s <=? 0) || (k <=? 0) || (h <? k) then None
  else Some ((h - k) / s + 1).

(** The running maximum takes a value that is larger, or that is NaN. *)
Definition step {T : Type} {S : Scalar T} (v : T) (acc : option T) : option T :=
  match acc with
  | None => Some v
  | Some m => Some (if sltb m v || sisnan v then v else m)
  end.

Definition forward {T : Type} {S : Scalar T} (m : t) (x : tensor T)
  : option (tensor T) :=
  match shape x with
  | [n; c; h; w] =>
      match out_size h (kernel_size m) (stride m),
            out_size w (kernel_size m) (stride m) with
      | Some h', Some w' =>
          Some (tabulate [n; c; h'; w']
                  (fun idx =>
                     let b := idx / (c * h' * w') in
                     let i := (idx / (h' * w')) mod c in
                     let y := (idx / w') mod h' in
                     let x' := idx mod w' in
                     match
                       fold_range (kernel_size m)
                         (fun ky acc =>
                            fold_range (kernel_size m)
                              (fun kx acc =>
                                 step (item x (((b * c + i) * h + (y * stride m + ky)) * w
                                               + (x' * stride m + kx))) acc)
                              acc)
                         None
                     with
                     | Some v => v
                     | None => szero
                     end))
      | _, _ => None
      end
  | _ => None
  end.

End MaxPool2d.

(** *** nn.Linear (with bias), on a batch of rows *)

Module Linear.

Record t (T : Type) : Type := {
  in_features : Z;
  out_features : Z;
  weight : Z -> Z -> T;      (* out feature, in feature *)
  bias : Z -> T
}.

Arguments in_features {T} _.
Arguments out_features {T} _.
Arguments weight {T} _.
Arguments bias {T} _.

Definition forward {T : Type} {S : Scalar T} (m : t T) (x : tensor T)
  : option (tensor T) :=
  match shape x with
  | [n; f] =>
      if f =? in_features m then
        let k := out_features m in
        Some (tabulate [n; k]
                (fun idx =>
                   let r := idx / k in
                   let j := idx mod k in
                   fold_range f
                     (fun i acc => sadd acc (smul (weight m j i) (item x (r * f + i))))
                     (bias m j)))
      else None
  | _ => None
  end.

End Linear.

(** *** The state a call runs in: the random generator and the mode flag.
    An operation is a function of this state that may fail. *)

Record runtime : Type := {
  generator : Z;
  training : bool
}.

Definition M (A : Type) : Type := runtime -> option (A * runtime).

Definition ret {A : Type} (a : A) : M A := fun rt => Some (a, rt).

Definition bind {A B : Type} (c : M A) (k : A -> M B) : M B :=
  fun rt =>
    match c rt with
    | Some (a, rt') => k a rt'
    | None => None
    end.

(** An operation that neither reads nor changes the state. *)
Definition pure {A : Type} (o : option A) : M A :=
  fun rt =>
    match o with
    | Some a => Some (a, rt)
    | None => None
    end.

(** For contrast, an operation the snippet does not call: [F.dropout] in
    training mode draws from the generator (a linear congruential step
    stands for the draw) and zeroes the elements it picks. *)
Definition next_random (g : Z) : Z := (1103515245 * g + 12345) mod 2147483648.

Fixpoint dropout_data {T : Type} {S : Scalar T} (g : Z) (l : list T) : list T * Z :=
  match l with
  | [] => ([], g)
  | v :: r =>
      let g' := next_random g in
      let (r', g'') := dropout_data g' r in
      ((if Z.even (g' / 65536) then szero else v) :: r', g'')
  end.

Definition dropout {T : Type} {S : Scalar T} (x : tensor T) : M (tensor T) :=
  fun rt =>
    if training rt then
      let (d, g) := dropout_data (generator rt) (data x) in
      Some ({| shape := shape x; data := d |},
            {| generator := g; training := training rt |})
    else Some (x, rt).

(** *** The custom embedding network of the guide *)

Module CustomCNN.

Record t (T : Type) : Type := {
  conv1 : Conv2d.t T;
  pool : MaxPool2d.t;
  fc : Linear.t T
}.

Arguments conv1 {T} _.
Arguments pool {T} _.
Arguments fc {T} _.

(** The values of the trainable parameters (the state dict). *)
Record parameters (T : Type) : Type := {
  conv1_weight : Z -> Z -> Z -> Z -> T;
  conv1_bias : Z -> T;
  fc_weight : Z -> Z -> T;
  fc_bias : Z -> T
}.

Arguments conv1_weight {T} _.
Arguments conv1_bias {T} _.
Arguments fc_weight {T} _.
Arguments fc_bias {T} _.

(** [__init__]: the three layers, with the parameter values [p]. *)
Definition init {T : Type} (p : parameters T) : t T :=
  {| conv1 := {| Conv2d.in_channels := 1;
                 Conv2d.out_channels := 6;
                 Conv2d.kernel_size := 5;
                 Conv2d.stride := 1;
                 Conv2d.padding := 2;
                 Conv2d.weight := conv1_weight p;
                 Conv2d.bias := conv1_bias p |};
     pool := {| MaxPool2d.kernel_size := 8; MaxPool2d.stride := 8 |};
     fc := {| Linear.in_features := 6 * 4 * 4;
              Linear.out_features := 8;
              Linear.weight := fc_weight p;
              Linear.bias := fc_bias p |} |}.

(** [forward], as the composition of its five calls. *)
Definition forward_value {T : Type} {S : Scalar T} (self : t T) (x : tensor T)
  : option (tensor T) :=
  match view x [-1; 1; 32; 32] with
  | None => None
  | Some x1 =>
      match Conv2d.forward (conv1 self) x1 with
      | None => None
      | Some c =>
          match MaxPool2d.forward (pool self) (relu c) with
          | None => None
          | Some x2 =>
              match view x2 [-1; 6 * 4 * 4] with
              | None => None
              | Some x3 =>
                  match Linear.forward (fc self) x3 with
                  | None => None
                  | Some y => Some (relu y)
                  end
              end
          end
      end
  end.

(** [forward], statement by statement, in the state the call runs in. *)
Definition forward {T : Type} {S : Scalar T} (self : t T) (x : tensor T)
  : M (tensor T) :=
  bind (pure (view x [-1; 1; 32; 32])) (fun x =>
  bind (bind (pure (Conv2d.forward (conv1 self) x)) (fun c =>
        bind (ret (relu c)) (fun r =>
        pure (MaxPool2d.forward (pool self) r)))) (fun x =>
  bind (pure (view x [-1; 6 * 4 * 4])) (fun x =>
  bind (bind (pure (Linear.forward (fc self) x)) (fun y => ret (relu y))) (fun x =>
  ret x)))).

End CustomCNN.

(** *** Two scalar types: exact integers, and integers with a NaN *)

#[export] Instance Z_scalar : Scalar Z :=
  {| szero := 0; sadd := Z.add; smul := Z.mul;
     sltb := Z.ltb; sleb := Z.leb; sisnan := fun _ => false |}.

(** Numbers as floating point has them, as far as matters here: the finite
    values are kept exact, and there is a NaN that every arithmetic
    operation propagates and every comparison rejects. *)
Inductive fnum : Type :=
| nan
| fin (z : Z).

Definition fnum_lift (f : Z -> Z -> Z) (a b : fnum) : fnum :=
  match a, b with
  | fin x, fin y => fin (f x y)
  | _, _ => nan
  end.

Definition fnum_cmp (f : Z -> Z -> bool) (a b : fnum) : bool :=
  match a, b with
  | fin x, fin y => f x y
  | _, _ => false
  end.

#[export] Instance fnum_scalar : Scalar fnum :=
  {| szero := fin 0; sadd := fnum_lift Z.add; smul := fnum_lift Z.mul;
     sltb := fnum_cmp Z.ltb; sleb := fnum_cmp Z.leb;
     sisnan := fun v => match v with nan => true | fin _ => false end |}.

End Torch.

Import Torch.


(** ** Vocabulary the properties below are stated with *)

(** The keywords the tokens of a snippet contain. *)
Definition keywords_of (ts : list token) : list string :=
  flat_map (fun t => match t with KEYWORD k => [k] | _ => [] end) ts.

(** The names (identifiers) the tokens of a snippet contain. *)
Definition names_of (ts : list token) : list string :=
  flat_map (fun t => match t with NAME x => [x] | _ => [] end) ts.

Definition snippet_keywords : list string :=
  flat_map (fun o => match o with Some ts => keywords_of ts | None => [] end) snippet_tokens.

Definition snippet_names : list string :=
  flat_map (fun o => match o with Some ts => names_of ts | None => [] end) snippet_tokens.

(** Keywords of Python that branch, loop or transfer control out of a loop. *)
Definition control_keywords : list string :=
  ["if"; "elif"; "else"; "for"; "while"; "break"; "continue"; "try"; "except";
   "finally"; "raise"; "with"; "lambda"; "yield"; "async"; "await"; "assert"].

(** Keywords of Python that raise, catch or check for errors. *)
Definition error_keywords : list string :=
  ["try"; "except"; "finally"; "raise"; "assert"].

(** Words (lower case) that name error handling, in Python or elsewhere. *)
Definition error_words : list string :=
  ["try"; "except"; "raise"; "finally"; "assert"; "catch"; "throw"; "error";
   "rescue"; "panic"; "abort"; "traceback"].

(** Keywords of Python for asynchronous code and for managed resources. *)
Definition concurrency_keywords : list string :=
  ["async"; "await"; "with"; "yield"].

(** Names and words (lower case) of threads, tasks, locks and resources. *)
Definition concurrency_words : list string :=
  ["thread"; "async"; "await"; "concurrent"; "multiprocessing"; "subprocess";
   "lock"; "mutex"; "semaphore"; "acquire"; "release"; "__enter__"; "__exit__";
   "open("; "close("; "socket"; "queue"; "executor"; "future"; "coroutine"].

(** Words (lower case) of the layers the specification says are absent. *)
Definition layer_words : list string :=
  ["scheduler"; "protocol"; "cache"; "resolver"; "storage"].

Definition free_of (ws : list string) (ls : list string) : bool :=
  forallb (fun l => negb (mentions_any ws l)) ls.

(** The names the guide advertises: the factory of conditional density
    estimators, the pre-built embedding networks, the custom module and the
    trainer. *)
Definition advertised : list string :=
  ["posterior_nn"; "FCEmbedding"; "CNNEmbedding"; "PermutationInvariantEmbedding";
   "CustomCNN"; "NPE"].

(** Modelled from the spec: the public API surface of the sbi library that the
    guide calls; the library itself is not part of the supplied source.  The
    specification names a factory function for conditional density estimators
    (posterior_nn), the pre-built embedding-network constructors and a trainer
    constructor. *)
Inductive api_kind : Type := Factory | EmbeddingNet | Trainer.

Definition api_surface : list (string * api_kind) :=
  [("posterior_nn", Factory);
   ("FCEmbedding", EmbeddingNet);
   ("CNNEmbedding", EmbeddingNet);
   ("PermutationInvariantEmbedding", EmbeddingNet);
   ("NPE", Trainer)].

(** What a module imports or calls in its own statements is a name of the API
    surface or a class the module defines itself. *)
Definition within_api (ss : list stmt) : bool :=
  forallb (fun n => mem n (map fst api_surface) || mem n (map fst (classes ss)))
    (imported ss ++ module_calls ss).

(** A module hands an embedding network to the density-estimator factory:
    it assigns a call of [posterior_nn] that has the keyword [embedding_net]. *)
Definition attaches_embedding_net (ss : list stmt) : bool :=
  existsb (fun s =>
             match s with
             | Assign _ (Call (Name f) _ kws) =>
                 String.eqb f "posterior_nn" && mem "embedding_net" (map fst kws)
             | _ => false
             end) ss.

(** The first source line of the first cell (the title of the guide). *)
Definition title (nb : notebook) : option string :=
  match cells nb with
  | c :: _ => hd_error (source c)
  | [] => None
  end.

(** ** The CustomCNN fragment, read off its syntax tree *)

Definition class_body : list stmt :=
  match find_class "CustomCNN" second_ast with
  | Some b => b
  | None => []
  end.

Definition init_body : list stmt :=
  match find_def "__init__" class_body with
  | Some (_, b) => b
  | None => []
  end.

Definition forward_body : list stmt :=
  match find_def "forward" class_body with
  | Some (_, b) => b
  | None => []
  end.

(** The operations [forward] calls, in order, each [self.a] replaced by the
    layer [__init__] constructs for it. *)
Definition forward_ops : list string :=
  map (resolve init_body) (flat_map calls_stmt forward_body).

(** The sizes requested by the calls of [x.view] in a body. *)
Definition view_sizes (ss : list stmt) : list (list (option Z)) :=
  flat_map (fun s =>
              match s with
              | Assign _ (Call (Attribute (Name "x") "view") args _) => [map const_int args]
              | _ => []
              end) ss.

Record hyperparameters : Type := {
  conv_in_channels : option Z;
  conv_out_channels : option Z;
  conv_kernel_size : option Z;
  conv_padding : option Z;
  pool_kernel_size : option Z;
  pool_stride : option Z;
  fc_in_features : option Z;
  fc_out_features : option Z
}.

(** The numbers the fragment writes in [__init__]. *)
Definition declared : hyperparameters :=
  {| conv_in_channels := hyper init_body "conv1" "in_channels";
     conv_out_channels := hyper init_body "conv1" "out_channels";
     conv_kernel_size := hyper init_body "conv1" "kernel_size";
     conv_padding := hyper init_body "conv1" "padding";
     pool_kernel_size := hyper init_body "pool" "kernel_size";
     pool_stride := hyper init_body "pool" "stride";
     fc_in_features := hyper init_body "fc" "in_features";
     fc_out_features := hyper init_body "fc" "out_features" |}.

(** The numbers of a model of the network. *)
Definition modelled {T : Type} (m : CustomCNN.t T) : hyperparameters :=
  {| conv_in_channels := Some (Conv2d.in_channels (CustomCNN.conv1 m));
     conv_out_channels := Some (Conv2d.out_channels (CustomCNN.conv1 m));
     conv_kernel_size := Some (Conv2d.kernel_size (CustomCNN.conv1 m));
     conv_padding := Some (Conv2d.padding (CustomCNN.conv1 m));
     pool_kernel_size := Some (MaxPool2d.kernel_size (CustomCNN.pool m));
     pool_stride := Some (MaxPool2d.stride (CustomCNN.pool m));
     fc_in_features := Some (Linear.in_features (CustomCNN.fc m));
     fc_out_features := Some (Linear.out_features (CustomCNN.fc m)) |}.

(** ** Sample inputs and parameters *)

Definition sample_parameters : CustomCNN.parameters Z :=
  {| CustomCNN.conv1_weight := fun o i y x => (o + y - x)%Z;
     CustomCNN.conv1_bias := fun o => (o - 3)%Z;
     CustomCNN.fc_weight := fun j i => (j - i mod 5)%Z;
     CustomCNN.fc_bias := fun j => (j - 4)%Z |}.

(** One 32x32 image, given as a tensor of shape (32, 32). *)
Definition sample_image : tensor Z :=
  {| shape := [32%Z; 32%Z];
     data := map (fun k => (Z.of_nat k mod 7 - 3)%Z) (seq 0 1024) |}.

Definition eval_mode : runtime := {| generator := 42%Z; training := false |}.
Definition train_mode : runtime := {| generator := 7%Z; training := true |}.

(** Parameters that are all zero but for the bias of the linear layer, which
    is NaN; and an image of zeros. *)
Definition nan_bias_parameters : CustomCNN.parameters fnum :=
  {| CustomCNN.conv1_weight := fun _ _ _ _ => fin 0;
     CustomCNN.conv1_bias := fun _ => fin 0;
     CustomCNN.fc_weight := fun _ _ => fin 0;
     CustomCNN.fc_bias := fun _ => nan |}.

Definition zero_image : tensor fnum :=
  {| shape := [1%Z; 1%Z; 32%Z; 32%Z]; data := repeat (fin 0) 1024 |}.

Definition small_tensor : tensor Z := {| shape := [4%Z]; data := [1; 2; 3; 4]%Z |}.

(** A scalar is non-negative when zero is at most it. *)
Definition nonneg {T : Type} {S : Scalar T} (v : T) : Prop := sleb szero v = true.


(** ** Names a fragment uses without binding them *)

(** The names an expression reads. *)
Fixpoint names_expr (e : expr) : list string :=
  match e with
  | Name x => [x]
  | Num _ | Str _ => []
  | Attribute v _ => names_expr v
  | Call f args kws =>
      names_expr f ++ flat_map names_expr args
        ++ flat_map (fun kv => names_expr (snd kv)) kws
  | Tuple es => flat_map names_expr es
  | BinOp l _ r => names_expr l ++ names_expr r
  | UnaryOp _ x => names_expr x
  end.

(** The names a statement binds in the scope it stands in. *)
Definition binds (s : stmt) : list string :=
  match s with
  | ImportFrom _ ns => ns
  | Assign (Name x) _ => [x]
  | ClassDef n _ _ _ => [n]
  | FunctionDef n _ _ => [n]
  | _ => []
  end.

(** The names an assignment reads on its left: none for a plain name, the
    object for an attribute. *)
Definition target_reads (t : expr) : list string :=
  match t with
  | Name _ => []
  | _ => names_expr t
  end.

Definition unbound_in (env : list string) (ns : list string) : list string :=
  filter (fun x => negb (mem x env)) ns.

(** The names of Python that are bound without any import, as far as the
    fragments use them. *)
Definition builtins : list string := ["super"].

(** [unbound_stmt late env s]: the names the statement [s] reads before
    anything binds them, run from the bindings [env].  The body of a function
    runs when the function is called: it sees its parameters, what it has
    assigned so far, and the bindings [late] its module ends up with.  The body
    of a class runs where the class statement stands.  Statements of a body
    run in order, each seeing what those before it bind. *)
Fixpoint unbound_stmt (late env : list string) (s : stmt) : list string :=
  match s with
  | ImportFrom _ _ | Pass | Return None => []
  | Assign t v => unbound_in env (names_expr v ++ target_reads t)
  | Expr v => unbound_in env (names_expr v)
  | Return (Some v) => unbound_in env (names_expr v)
  | ClassDef _ bases kws body =>
      unbound_in env (flat_map names_expr bases
                        ++ flat_map (fun kv => names_expr (snd kv)) kws)
        ++ (fix run (env : list string) (ss : list stmt) : list string :=
              match ss with
              | [] => []
              | s' :: r => unbound_stmt late env s' ++ run (binds s' ++ env) r
              end) env body
  | FunctionDef _ ps body =>
      (fix run (env : list string) (ss : list stmt) : list string :=
         match ss with
         | [] => []
         | s' :: r => unbound_stmt late env s' ++ run (binds s' ++ env) r
         end) (ps ++ env ++ late) body
  end.

Fixpoint unbound (late env : list string) (ss : list stmt) : list string :=
  match ss with
  | [] => []
  | s :: r => unbound_stmt late env s ++ unbound late (binds s ++ env) r
  end.

(** A list of names without its repetitions, first occurrences kept. *)
Fixpoint dedup (seen : list string) (l : list string) : list string :=
  match l with
  | [] => []
  | x :: r => if mem x seen then dedup seen r else x :: dedup (x :: seen) r
  end.

(** The names a module leaves unbound when it is run on its own, each once,
    in the order of first use. *)
Definition unbound_names (ss : list stmt) : list string :=
  dedup [] (unbound (flat_map binds ss) builtins ss).

(** ** More sample inputs *)


(** Parameters without any NaN, and an image of ones with one NaN pixel
    (row 15, column 20). *)
Definition fin_parameters : CustomCNN.parameters fnum :=
  {| CustomCNN.conv1_weight := fun o _ y x => fin (o + y - x)%Z;
     CustomCNN.conv1_bias := fun _ => fin 0;
     CustomCNN.fc_weight := fun j i => fin (j - i)%Z;
     CustomCNN.fc_bias := fun j => fin j |}.

(** Two one-channel images of 40 x 56, all zero. *)
Definition wide_images : tensor fnum :=
  {| shape := [2%Z; 1%Z; 40%Z; 56%Z]; data := repeat (fin 0) 4480 |}.

Definition nan_pixel_image : tensor fnum :=
  {| shape := [1%Z; 1%Z; 32%Z; 32%Z];
     data := repeat (fin 1) 500 ++ nan :: repeat (fin 1) 523 |}.

(** What lets [relu] pass through a running maximum. *)
Definition relu_passes_step (T : Type) {S : Scalar T} : Prop :=
  relu_scalar szero = szero
  /\ forall m v : T,
       relu_scalar (if sltb m v || sisnan v then v else m)
       = (if sltb (relu_scalar m) (relu_scalar v) || sisnan (relu_scalar v)
          then relu_scalar v else relu_scalar m).

(** ** The API the fragments are written against *)

(** How a callable takes its arguments: its named parameters in order, each
    required or not, and whether it also takes any number of positional
    arguments or any keyword. *)
Record signature : Type := {
  sig_params : list (string * bool);
  sig_args : bool;
  sig_kwargs : bool
}.

Definition required (n : string) : string * bool := (n, true).
Definition optional (n : string) : string * bool := (n, false).

Definition takes (ps : list (string * bool)) : signature :=
  {| sig_params := ps; sig_args := false; sig_kwargs := false |}.

Fixpoint lookup {A : Type} (k : string) (l : list (string * A)) : option A :=
  match l with
  | [] => None
  | (k', v) :: r => if String.eqb k k' then Some v else lookup k r
  end.

(** Modelled from the spec: the public API of the sbi library, whose code is
    not part of the supplied source.  The specification names a factory
    function for conditional density estimators (posterior_nn), the pre-built
    embedding-network constructors and a trainer constructor; the modules
    that export them and their parameters are those the library documents
    (release 0.23 and later, where the trainer is called NPE). *)
Definition sbi_modules : list (string * list string) :=
  [("sbi.neural_nets", ["posterior_nn"; "likelihood_nn"; "classifier_nn"]);
   ("sbi.neural_nets.embedding_nets",
    ["FCEmbedding"; "CNNEmbedding"; "PermutationInvariantEmbedding"]);
   ("sbi.inference", ["NPE"; "NLE"; "NRE"])].

Definition sbi_signatures : list (string * signature) :=
  [("posterior_nn",
    {| sig_params := [required "model"; optional "z_score_theta"; optional "z_score_x";
                      optional "hidden_features"; optional "num_transforms";
                      optional "num_bins"; optional "embedding_net";
                      optional "num_components"];
       sig_args := false;
       sig_kwargs := true |});
   ("CNNEmbedding",
    takes [required "input_shape"; optional "in_channels";
           optional "out_channels_per_layer"; optional "num_conv_layers";
           optional "num_linear_layers"; optional "num_linear_units";
           optional "output_dim"; optional "kernel_size"; optional "pool_kernel_size"]);
   ("FCEmbedding",
    takes [required "input_dim"; optional "output_dim"; optional "num_layers";
           optional "num_hiddens"]);
   ("NPE",
    takes [optional "prior"; optional "density_estimator"; optional "device";
           optional "logging_level"; optional "summary_writer";
           optional "show_progress_bars"])].

(** The part of PyTorch the custom module is built from, under the names the
    fragment uses ([nn] for torch.nn, [F] for torch.nn.functional), as PyTorch
    documents it; and [super] of Python. *)
Definition torch_signatures : list (string * signature) :=
  [("nn.Conv2d",
    takes [required "in_channels"; required "out_channels"; required "kernel_size";
           optional "stride"; optional "padding"; optional "dilation";
           optional "groups"; optional "bias"; optional "padding_mode";
           optional "device"; optional "dtype"]);
   ("nn.MaxPool2d",
    takes [required "kernel_size"; optional "stride"; optional "padding";
           optional "dilation"; optional "return_indices"; optional "ceil_mode"]);
   ("nn.Linear",
    takes [required "in_features"; required "out_features"; optional "bias";
           optional "device"; optional "dtype"]);
   ("F.relu", takes [required "input"; optional "inplace"]);
   ("x.view", {| sig_params := []; sig_args := true; sig_kwargs := false |});
   ("super", takes [optional "type"; optional "object_or_type"]);
   ("super().__init__", takes [])].

(** Calling a layer runs its [forward], which takes the input. *)
Definition layer_call : list (string * signature) :=
  [("nn.Conv2d", takes [required "input"]);
   ("nn.MaxPool2d", takes [required "input"]);
   ("nn.Linear", takes [required "input"])].

(** The classes a class statement may extend. *)
Definition base_classes : list string := ["nn.Module"].

(** A call with [npos] positional arguments and the keywords [kws] fits a
    signature: no positional argument too many, every keyword names a
    parameter not already given by position (or any keyword is taken), and
    every required parameter is given. *)
Definition call_ok (s : signature) (npos : nat) (kws : list string) : bool :=
  let names := map fst (sig_params s) in
  let by_position := firstn npos names in
  let by_keyword := skipn npos names in
  (sig_args s || Nat.leb npos (List.length names))
  && forallb (fun k => mem k by_keyword
                       || (sig_kwargs s && negb (mem k by_position))) kws
  && forallb (fun p => negb (snd p) || mem (fst p) by_position || mem (fst p) kws)
       (sig_params s).

Record call_site : Type := {
  callee : string;
  n_positional : nat;
  given : list string
}.

(** The calls of an expression, with what each passes. *)
Fixpoint sites_expr (e : expr) : list call_site :=
  match e with
  | Name _ | Num _ | Str _ => []
  | Attribute v _ => sites_expr v
  | Call f args kws =>
      sites_expr f
        ++ flat_map sites_expr args
        ++ flat_map (fun kv => sites_expr (snd kv)) kws
        ++ [{| callee := show f; n_positional := List.length args; given := map fst kws |}]
  | Tuple es => flat_map sites_expr es
  | BinOp l _ r => sites_expr l ++ sites_expr r
  | UnaryOp _ x => sites_expr x
  end.

Fixpoint sites_stmt (s : stmt) : list call_site :=
  match s with
  | ImportFrom _ _ | Pass | Return None => []
  | Assign t v => sites_expr t ++ sites_expr v
  | Expr v => sites_expr v
  | Return (Some v) => sites_expr v
  | ClassDef _ bases kws body =>
      flat_map sites_expr bases
        ++ flat_map (fun kv => sites_expr (snd kv)) kws
        ++ flat_map sites_stmt body
  | FunctionDef _ _ body => flat_map sites_stmt body
  end.

(** The imports of a statement, wherever they stand, and the bases of the
    classes it defines. *)
Fixpoint imports_stmt (s : stmt) : list (string * list string) :=
  match s with
  | ImportFrom m ns => [(String.concat "." m, ns)]
  | ClassDef _ _ _ body => flat_map imports_stmt body
  | FunctionDef _ _ body => flat_map imports_stmt body
  | _ => []
  end.

Fixpoint bases_stmt (s : stmt) : list string :=
  match s with
  | ClassDef _ bases _ body => map show bases ++ flat_map bases_stmt body
  | FunctionDef _ _ body => flat_map bases_stmt body
  | _ => []
  end.

(** The statements of the [__init__] methods of the classes of a module. *)
Definition init_bodies (ss : list stmt) : list stmt :=
  flat_map (fun s =>
              match s with
              | ClassDef _ _ _ body =>
                  match find_def "__init__" body with
                  | Some (_, b) => b
                  | None => []
                  end
              | _ => []
              end) ss.

(** The constructors of the classes a module defines: the parameters of
    [__init__] after [self], all required. *)
Definition own_signatures (ss : list stmt) : list (string * signature) :=
  flat_map (fun s =>
              match s with
              | ClassDef n _ _ body =>
                  match find_def "__init__" body with
                  | Some (_ :: ps, _) => [(n, takes (map required ps))]
                  | _ => [(n, takes [])]
                  end
              | _ => []
              end) ss.

(** The signature a callee of the module [ss] is called against: for
    [self.a], the call of the layer [__init__] stores in [a]; else a class of
    the module, a callable of sbi or one of PyTorch. *)
Definition signature_of (ss : list stmt) (c : string) : option signature :=
  if starts_with "self." c then
    match layer_of (init_bodies ss) (substring 5 (String.length c - 5) c) with
    | Some l => lookup l layer_call
    | None => None
    end
  else
    match lookup c (own_signatures ss) with
    | Some s => Some s
    | None =>
        match lookup c sbi_signatures with
        | Some s => Some s
        | None => lookup c torch_signatures
        end
    end.

Definition import_ok (i : string * list string) : bool :=
  match lookup (fst i) sbi_modules with
  | Some exports => forallb (fun n => mem n exports) (snd i)
  | None => false
  end.

Definition site_ok (ss : list stmt) (c : call_site) : bool :=
  match signature_of ss (callee c) with
  | Some s => call_ok s (n_positional c) (given c)
  | None => false
  end.

(** A module conforms to the API: every import names a module of sbi and
    names it exports, every class extends a known base, and every call, in
    the module and in the bodies of its classes and functions, fits the
    signature of its callee. *)
Definition conforms (ss : list stmt) : bool :=
  forallb import_ok (flat_map imports_stmt ss)
  && forallb (fun b => mem b base_classes) (flat_map bases_stmt ss)
  && forallb (site_ok ss) (flat_map sites_stmt ss).

Definition conforms_text (ls : list string) : option bool :=
  option_map conforms (parse ls).

(** * Properties *)

(** ** The stored file and the notebook *)

Ltac by_computation := vm_compute; reflexivity.

(** [conjuncts tac]: a conjunction, [tac] for each of its parts. *)
Ltac conjuncts tac := repeat (apply conj; [tac|]); tac.

(** [each tac]: a [Forall] over a list given by its elements, [tac] for each. *)
Ltac each tac := repeat (apply Forall_cons; [tac|]); apply Forall_nil.

(** Writing the notebook gives the stored file, line for line. *)
Lemma write_embedding_networks : write embedding_networks = raw_lines.
Proof. by_computation. Qed.

Lemma snippet_count : List.length guide_snippets = 2%nat.
Proof. by_computation. Qed.

Lemma snippet_languages : map info guide_snippets = ["Python"; "python"].
Proof. by_computation. Qed.

(** The parser is no rubber stamp: it refuses text that is no Python. *)
Example parse_rejects_open_parenthesis : parse ["x = (1, 2"] = None.
Proof. by_computation. Qed.

Example parse_rejects_positional_after_keyword : parse ["f(a=1, b)"] = None.
Proof. by_computation. Qed.

Example parse_rejects_repeated_keyword : parse ["f(a=1, a=2)"] = None.
Proof. by_computation. Qed.

Example parse_rejects_unexpected_indent : parse ["x = 1"; "  y = 2"] = None.
Proof. by_computation. Qed.

Example parse_rejects_missing_block : parse ["def f(x):"; "x = 1"] = None.
Proof. by_computation. Qed.

Example parse_rejects_return_outside_function : parse ["return x"] = None.
Proof. by_computation. Qed.

Example parse_rejects_assignment_to_call : parse ["f() = 1"] = None.
Proof. by_computation. Qed.

Example parse_rejects_unclosed_string : parse [dq "x = 'maf"] = None.
Proof. by_computation. Qed.

Example parse_rejects_bad_dedent : parse ["def f(x):"; "    y = x"; "  return y"] = None.
Proof. by_computation. Qed.

Example parse_accepts_small_function :
  parse ["def f(x):"; "    y = g(x, k=-2 * 3)"; "    return y"]
  = Some [FunctionDef "f" ["x"]
            [Assign (Name "y")
               (Call (Name "g") [Name "x"]
                  [("k", BinOp (UnaryOp USub (Num 2)) Mult (Num 3))]);
             Return (Some (Name "y"))]].
Proof. by_computation. Qed.

(** The values of the definitions above, computed once. *)
Lemma snippet_asts_value : snippet_asts = [Some first_ast; Some second_ast].
Proof. by_computation. Qed.

Lemma snippet_asts_parse : map parse snippet_lines = [Some first_ast; Some second_ast].
Proof. by_computation. Qed.

Lemma snippet_keywords_value :
  snippet_keywords = ["from"; "import"; "from"; "import"; "class"; "def"; "def"; "return"].
Proof. by_computation. Qed.

(** C1. The notebook holds nothing a kernel would run: each of its cells has
    cell type "markdown" (in the notebook and in the stored lines), none is a
    code cell, the two code fragments are fenced text of markdown cells, and
    the fragments contain no branching or looping keyword. *)
Theorem notebook_cells_all_markdown :
  Forall (fun c => cell_type c = "markdown") (cells embedding_networks)
  /\ code_cells embedding_networks = []
  /\ List.length (cells embedding_networks) = 8%nat
  /\ List.length (filter (contains (dq "'cell_type': 'markdown'")) raw_lines) = 8%nat
  /\ filter (contains (dq "'cell_type': 'code'")) raw_lines = []
  /\ write embedding_networks = raw_lines
  /\ guide_snippets
     = flat_map (fun c => fences None (source c))
         (filter is_markdown (cells embedding_networks))
  /\ List.length guide_snippets = 2%nat
  /\ Forall (fun k => mem k control_keywords = false) snippet_keywords.
Proof.
  split; [unfold embedding_networks, cells; each ltac:(reflexivity)|].
  split; [by_computation|].
  split; [by_computation|].
  split; [by_computation|].
  split; [by_computation|].
  split; [exact write_embedding_networks|].
  split; [by_computation|].
  split; [by_computation|].
  rewrite snippet_keywords_value. each ltac:(by_computation).
Qed.

(** C2. The supplied source is one file, the notebook
    docs/how_to_guide/04_embedding_networks.ipynb: its lines are those of an
    nbformat 4 notebook whose cells are all documentation (markdown), titled
    "How to use embedding nets for high-dimensional observations", and each of
    its code fragments hands an embedding network to the factory of posterior
    estimators. *)
Theorem source_tree_single_notebook :
  List.length source_tree = 1%nat
  /\ map fst source_tree = ["docs/how_to_guide/04_embedding_networks.ipynb"]
  /\ Forall (fun f => ends_with ".ipynb" (fst f) = true
                      /\ snd f = write embedding_networks) source_tree
  /\ nbformat embedding_networks = 4%Z
  /\ forallb is_markdown (cells embedding_networks) = true
  /\ title embedding_networks
     = Some "# How to use embedding nets for high-dimensional observations"
  /\ Forall (fun o => exists ast, o = Some ast /\ attaches_embedding_net ast = true)
       snippet_asts.
Proof.
  split; [by_computation|].
  split; [by_computation|].
  split.
  { unfold source_tree.
    each ltac:(split; [by_computation | symmetry; exact write_embedding_networks]). }
  split; [by_computation|].
  split; [by_computation|].
  split; [by_computation|].
  rewrite snippet_asts_value.
  each ltac:(eexists; split; [reflexivity | by_computation]).
Qed.

(** C3, as stated: the supplied source has 134 lines and names no scheduler,
    protocol, cache, resolver or storage layer.  The line count is wrong. *)
Lemma raw_lines_not_134 :
  ~ (List.length raw_lines = 134%nat /\ free_of layer_words raw_lines = true).
Proof. intros [H _]. vm_compute in H. discriminate H. Qed.

(** C3, amended: the supplied source has 133 lines (132 line feeds, the last
    line being unterminated), and no line names a scheduler, a protocol, a
    cache, a resolver or a storage layer. *)
Theorem raw_lines_count_and_layers :
  List.length raw_lines = 133%nat
  /\ map (fun f => List.length (snd f)) source_tree = [133%nat]
  /\ free_of layer_words raw_lines = true.
Proof.
  split; [by_computation|].
  split; by_computation.
Qed.

(** C4. The notebook exposes markdown cells with (empty) metadata and
    nothing else; the fragments in them parse as Python, and what their own
    statements import, call or define is exactly the advertised names:
    posterior_nn, FCEmbedding, CNNEmbedding, PermutationInvariantEmbedding,
    the custom module CustomCNN (a class with the one base nn.Module) and
    NPE.  Every other call stands inside the body of CustomCNN, which is
    built from nn.Conv2d, nn.MaxPool2d, nn.Linear, F.relu and view. *)
Theorem snippets_reference_advertised_names :
  Forall (fun c => cell_type c = "markdown" /\ metadata c = JObj [])
    (cells embedding_networks)
  /\ exists ast1 ast2,
       map parse snippet_lines = [Some ast1; Some ast2]
       /\ same_names (module_references ast1 ++ module_references ast2) advertised = true
       /\ import_modules (ast1 ++ ast2)
          = ["sbi.neural_nets"; "sbi.neural_nets.embedding_nets"]
       /\ imported (ast1 ++ ast2)
          = ["posterior_nn"; "FCEmbedding"; "CNNEmbedding"; "PermutationInvariantEmbedding"]
       /\ module_calls ast1 = ["CNNEmbedding"; "posterior_nn"; "NPE"]
       /\ module_calls ast2 = ["CustomCNN"; "posterior_nn"; "NPE"]
       /\ classes (ast1 ++ ast2) = [("CustomCNN", ["nn.Module"])]
       /\ class_body_calls ast1 = []
       /\ class_body_calls ast2
          = ["super"; "super().__init__"; "nn.Conv2d"; "nn.MaxPool2d"; "nn.Linear";
             "x.view"; "self.conv1"; "F.relu"; "self.pool"; "x.view"; "self.fc";
             "F.relu"]
       /\ flat_map calls_stmt ast2 = class_body_calls ast2 ++ module_calls ast2.
Proof.
  split; [unfold embedding_networks, cells; each ltac:(split; reflexivity)|].
  exists first_ast, second_ast.
  split; [exact snippet_asts_parse|].
  conjuncts by_computation.
Qed.

(** The conformance check refuses what the library does not offer. *)
Example conforms_rejects_unknown_module :
  conforms_text ["from sbi.no_such_module import posterior_nn"] = Some false.
Proof. by_computation. Qed.

Example conforms_rejects_foreign_module :
  conforms_text ["from os import posterior_nn"] = Some false.
Proof. by_computation. Qed.

Example conforms_rejects_unknown_export :
  conforms_text ["from sbi.neural_nets.embedding_nets import NoSuchEmbedding"] = Some false.
Proof. by_computation. Qed.

Example conforms_rejects_missing_argument :
  conforms_text ["p = posterior_nn(embedding_net=e)"] = Some false.
Proof. by_computation. Qed.

Example conforms_rejects_unknown_keyword :
  conforms_text ["e = CNNEmbedding(input_shape=(32, 32), bogus=1)"] = Some false.
Proof. by_computation. Qed.

Example conforms_rejects_argument_given_twice :
  conforms_text ["e = CNNEmbedding((32, 32), input_shape=(32, 32))"] = Some false.
Proof. by_computation. Qed.

Example conforms_rejects_too_many_arguments :
  conforms_text ["t = NPE(1, 2, 3, 4, 5, 6, 7)"] = Some false.
Proof. by_computation. Qed.

Example conforms_rejects_unknown_callable :
  conforms_text ["t = Unknown(1)"] = Some false.
Proof. by_computation. Qed.

Example conforms_rejects_short_layer :
  conforms_text ["class C(nn.Module):";
                 "    def __init__(self):";
                 "        self.c = nn.Conv2d(1, 6)"] = Some false.
Proof. by_computation. Qed.

(** C6. Each of the two code fragments of the notebook is well-formed
    Python: its lines tokenize and the tokens parse as a file (a sequence of
    statements that uses up the input).  Each is valid against the API of the
    library: every import names a module of sbi and names that module
    exports, every call fits the signature of its callee (no unknown or
    repeated keyword, no argument too many, no required parameter missing),
    for the callables of sbi at module level and for the PyTorch layers in
    the body of the custom module, and the class extends nn.Module. *)
Theorem snippets_parse :
  List.length snippet_lines = 2%nat
  /\ Forall (fun ls => exists ts ast, tokenize ls = Some ts
                                      /\ file_input ts = Some ast
                                      /\ parse ls = Some ast
                                      /\ within_api ast = true
                                      /\ conforms ast = true) snippet_lines.
Proof.
  split; [by_computation|].
  unfold snippet_lines.
  each ltac:(do 2 eexists; split; [by_computation|]; split; [by_computation|];
             split; [by_computation|]; split; by_computation).
Qed.

(** C7. No error handling occurs in the notebook: no keyword of a fragment
    is try, except, finally, raise or assert, and no line of the stored file
    (prose and fragments alike) contains a word of error handling. *)
Theorem no_error_handling :
  Forall (fun ls => exists ts, tokenize ls = Some ts
                               /\ Forall (fun k => mem k error_keywords = false)
                                    (keywords_of ts)) snippet_lines
  /\ snippet_keywords
     = ["from"; "import"; "from"; "import"; "class"; "def"; "def"; "return"]
  /\ Forall (fun k => mem k error_keywords = false) snippet_keywords
  /\ free_of error_words raw_lines = true.
Proof.
  split.
  { unfold snippet_lines.
    each ltac:(eexists; split; [by_computation|];
               cbv beta; each ltac:(by_computation)). }
  split; [exact snippet_keywords_value|].
  split; [rewrite snippet_keywords_value; each ltac:(by_computation)|].
  by_computation.
Qed.

(** C8. Nothing concurrent, asynchronous or resource-managed occurs in the
    notebook: no keyword of a fragment is async, await, with or yield, no name
    of a fragment and no line of the stored file contains a word of threads,
    tasks, locks or resources, and no cell is a code cell. *)
Theorem no_concurrency :
  Forall (fun ls => exists ts, tokenize ls = Some ts
                               /\ Forall (fun k => mem k concurrency_keywords = false)
                                    (keywords_of ts)) snippet_lines
  /\ Forall (fun k => mem k concurrency_keywords = false) snippet_keywords
  /\ free_of concurrency_words snippet_names = true
  /\ free_of concurrency_words raw_lines = true
  /\ code_cells embedding_networks = [].
Proof.
  split.
  { unfold snippet_lines.
    each ltac:(eexists; split; [by_computation|];
               cbv beta; each ltac:(by_computation)). }
  split; [rewrite snippet_keywords_value; each ltac:(by_computation)|].
  conjuncts by_computation.
Qed.

(** ** The CustomCNN fragment *)

Local Open Scope Z_scope.

Lemma numel_of_nonneg (sh : list Z) :
  Forall (fun d => 0 <= d) sh -> 0 <= numel_of sh.
Proof.
  induction 1 as [|d sh Hd _ IH]; simpl.
  - lia.
  - apply Z.mul_nonneg_nonneg; assumption.
Qed.



(** [view(-1, 1, 32, 32)] on a multiple of 1024 elements. *)
Lemma view_batch {T : Type} (x : tensor T) :
  numel x mod 1024 = 0 ->
  view x [-1; 1; 32; 32]
  = Some {| shape := [numel x / 1024; 1; 32; 32]; data := data x |}.
Proof.
  intros H. unfold view, infer_size.
  change (existsb (fun d => d <? -1) [-1; 1; 32; 32]) with false.
  change (filter (fun d => d =? -1) [-1; 1; 32; 32]) with [-1].
  change (numel_of (filter (fun d => negb (d =? -1)) [-1; 1; 32; 32])) with 1024.
  change (1024 =? 0) with false.
  cbv iota. rewrite H. reflexivity.
Qed.

(** [view(-1, 6 * 4 * 4)] on a batch of 6 maps of 4x4. *)
Lemma view_flat {T : Type} (x : tensor T) (n : Z) :
  shape x = [n; 6; 4; 4] ->
  view x [-1; 6 * 4 * 4] = Some {| shape := [n; 96]; data := data x |}.
Proof.
  intros H. unfold view, infer_size, numel. rewrite H.
  change (existsb (fun d => d <? -1) [-1; 6 * 4 * 4]) with false.
  change (filter (fun d => d =? -1) [-1; 6 * 4 * 4]) with [-1].
  change (numel_of (filter (fun d => negb (d =? -1)) [-1; 6 * 4 * 4])) with 96.
  change (96 =? 0) with false.
  change (numel_of [n; 6; 4; 4]) with (n * (6 * (4 * (4 * 1)))).
  replace (n * (6 * (4 * (4 * 1)))) with (n * 96) by lia.
  cbv iota. rewrite Z.mod_mul by lia. rewrite Z.div_mul by lia.
  reflexivity.
Qed.

Lemma conv2d_shape {T : Type} {S : Scalar T} (m : Conv2d.t T) (x : tensor T)
      (n h w h' w' : Z) :
  shape x = [n; Conv2d.in_channels m; h; w] ->
  Conv2d.out_size h (Conv2d.kernel_size m) (Conv2d.padding m) (Conv2d.stride m) = Some h' ->
  Conv2d.out_size w (Conv2d.kernel_size m) (Conv2d.padding m) (Conv2d.stride m) = Some w' ->
  exists f, Conv2d.forward m x = Some (tabulate [n; Conv2d.out_channels m; h'; w'] f).
Proof.
  intros Hs Hh Hw. unfold Conv2d.forward.
  rewrite Hs, Z.eqb_refl, Hh, Hw. eexists. reflexivity.
Qed.

Lemma maxpool2d_shape {T : Type} {S : Scalar T} (m : MaxPool2d.t) (x : tensor T)
      (n c h w h' w' : Z) :
  shape x = [n; c; h; w] ->
  MaxPool2d.out_size h (MaxPool2d.kernel_size m) (MaxPool2d.stride m) = Some h' ->
  MaxPool2d.out_size w (MaxPool2d.kernel_size m) (MaxPool2d.stride m) = Some w' ->
  exists f, MaxPool2d.forward m x = Some (tabulate [n; c; h'; w'] f).
Proof.
  intros Hs Hh Hw. unfold MaxPool2d.forward.
  rewrite Hs, Hh, Hw. eexists. reflexivity.
Qed.

Lemma linear_shape {T : Type} {S : Scalar T} (m : Linear.t T) (x : tensor T) (n : Z) :
  shape x = [n; Linear.in_features m] ->
  exists f, Linear.forward m x = Some (tabulate [n; Linear.out_features m] f).
Proof.
  intros Hs. unfold Linear.forward.
  rewrite Hs, Z.eqb_refl. eexists. reflexivity.
Qed.

(** A call of [forward] leaves the state as it found it, and its value is
    the composition of the five operations. *)
Lemma forward_runs {T : Type} {S : Scalar T} (self : CustomCNN.t T) (x : tensor T)
      (rt : runtime) :
  CustomCNN.forward self x rt
  = match CustomCNN.forward_value self x with
    | Some out => Some (out, rt)
    | None => None
    end.
Proof.
  unfold CustomCNN.forward, CustomCNN.forward_value, bind, pure, ret.
  destruct (view x [-1; 1; 32; 32]) as [x1|]; [|reflexivity].
  destruct (Conv2d.forward (CustomCNN.conv1 self) x1) as [c|]; [|reflexivity].
  destruct (MaxPool2d.forward (CustomCNN.pool self) (relu c)) as [x2|]; [|reflexivity].
  destruct (view x2 [-1; 6 * 4 * 4]) as [x3|]; [|reflexivity].
  destruct (Linear.forward (CustomCNN.fc self) x3) as [y|]; reflexivity.
Qed.

(** The value of [forward] is the [relu] of some tensor. *)
Lemma forward_value_is_relu {T : Type} {S : Scalar T} (self : CustomCNN.t T)
      (x out : tensor T) :
  CustomCNN.forward_value self x = Some out -> exists y, out = relu y.
Proof.
  unfold CustomCNN.forward_value.
  destruct (view x [-1; 1; 32; 32]) as [x1|]; [|discriminate].
  destruct (Conv2d.forward (CustomCNN.conv1 self) x1) as [c|]; [|discriminate].
  destruct (MaxPool2d.forward (CustomCNN.pool self) (relu c)) as [x2|]; [|discriminate].
  destruct (view x2 [-1; 6 * 4 * 4]) as [x3|]; [|discriminate].
  destruct (Linear.forward (CustomCNN.fc self) x3) as [y|]; [|discriminate].
  intros H. injection H as <-. exists y. reflexivity.
Qed.


(** The numbers of the model are those the fragment writes, and the sizes
    requested of [view] are the two the model uses. *)
Lemma init_as_declared {T : Type} (p : CustomCNN.parameters T) :
  declared = modelled (CustomCNN.init p)
  /\ view_sizes forward_body
     = [[Some (-1); Some 1; Some 32; Some 32]; [Some (-1); Some (6 * 4 * 4)]].
Proof. split; by_computation. Qed.

(** The default stride of [nn.Conv2d], which the fragment does not give. *)
Lemma conv1_stride_default :
  hyper init_body "conv1" "stride" = None.
Proof. by_computation. Qed.

Example forward_sample :
  CustomCNN.forward (CustomCNN.init sample_parameters) sample_image eval_mode
  = Some ({| shape := [1; 8];
             data := [0; 0; 25; 1873; 3721; 5569; 7417; 9265] |}, eval_mode).
Proof. by_computation. Qed.

#[export] Instance Z_order : ScalarOrder Z.
Proof.
  split; try reflexivity.
  intros v H. right. cbn in *. lia.
Qed.

#[export] Instance fnum_order : ScalarOrder fnum.
Proof.
  split; try reflexivity.
  intros [|z] H; [left; reflexivity|].
  right. cbn in *. lia.
Qed.

Lemma relu_scalar_sound {T : Type} {S : Scalar T} {O : ScalarOrder T} (v : T) :
  sltb (relu_scalar v) szero = false
  /\ (sisnan (relu_scalar v) = false -> nonneg (relu_scalar v)).
Proof.
  unfold relu_scalar, nonneg.
  destruct (sltb v szero) eqn:E.
  - split; [apply sltb_zero_zero | intros _; apply sleb_zero_zero].
  - split; [exact E|].
    intros Hn. destruct (not_below_zero v E) as [Hnan | Hle]; [|exact Hle].
    rewrite Hnan in Hn. discriminate Hn.
Qed.

(** [relu] propagates NaN. *)
Lemma relu_scalar_nan : relu_scalar nan = nan.
Proof. reflexivity. Qed.

(** An operation that draws from the generator is not a function of its
    input alone; [forward] calls none. *)
Lemma dropout_depends_on_generator :
  option_map fst (dropout small_tensor train_mode)
  <> option_map fst (dropout small_tensor {| generator := 8; training := true |})
  /\ option_map snd (dropout small_tensor train_mode) <> Some train_mode.
Proof. split; vm_compute; discriminate. Qed.

(** What [forward] calls, each [self.a] replaced by its layer: [view], the
    convolution, [relu], the pooling and the linear layer, and nothing that
    draws from the generator. *)
Lemma forward_ops_value :
  forward_ops
  = ["x.view"; "nn.Conv2d"; "F.relu"; "nn.MaxPool2d"; "x.view"; "nn.Linear"; "F.relu"].
Proof. by_computation. Qed.



(** C9, as stated: every component of the embedding forward returns is
    non-negative, for every input and every parameter setting.  It fails
    where a NaN reaches the last relu: with a NaN bias in the linear layer
    the components are NaN, and NaN is not at least zero. *)
Lemma relu_output_can_be_nan :
  CustomCNN.forward (CustomCNN.init nan_bias_parameters) zero_image eval_mode
  = Some ({| shape := [1; 8]; data := repeat nan 8 |}, eval_mode)
  /\ ~ (forall (p : CustomCNN.parameters fnum) (x out : tensor fnum) (rt rt' : runtime),
          CustomCNN.forward (CustomCNN.init p) x rt = Some (out, rt') ->
          Forall nonneg (data out)).
Proof.
  assert (E : CustomCNN.forward (CustomCNN.init nan_bias_parameters) zero_image eval_mode
              = Some ({| shape := [1; 8]; data := repeat nan 8 |}, eval_mode))
    by by_computation.
  split; [exact E|].
  intros H. specialize (H _ _ _ _ _ E).
  inversion H as [|v l Hv _]. discriminate Hv.
Qed.

(** C9, amended: the last operation of forward is relu, so no component of
    the embedding it returns is below zero, for every input and every
    parameter setting; and every component that is not NaN is non-negative
    (all of them are when the scalars have no NaN). *)
Theorem forward_output_not_negative {T : Type} {S : Scalar T} {O : ScalarOrder T}
        (self : CustomCNN.t T) (x out : tensor T) (rt rt' : runtime) :
  CustomCNN.forward self x rt = Some (out, rt') ->
  (exists y, out = relu y)
  /\ Forall (fun v => sltb v szero = false /\ (sisnan v = false -> nonneg v)) (data out).
Proof.
  rewrite forward_runs.
  destruct (CustomCNN.forward_value self x) as [out0|] eqn:E; [|discriminate].
  intros H. injection H as <- _.
  destruct (forward_value_is_relu _ _ _ E) as [y ->].
  split; [exists y; reflexivity|].
  unfold relu; simpl. apply Forall_forall. intros v Hin.
  apply in_map_iff in Hin. destruct Hin as (u & <- & _).
  apply relu_scalar_sound.
Qed.

Lemma forward_output_not_negative_witness :
  Forall (fun v : Z => sltb v szero = false /\ (sisnan v = false -> nonneg v))
    [0; 0; 25; 1873; 3721; 5569; 7417; 9265].
Proof.
  exact (proj2 (forward_output_not_negative
                  (CustomCNN.init sample_parameters) sample_image
                  {| shape := [1; 8]; data := [0; 0; 25; 1873; 3721; 5569; 7417; 9265] |}
                  eval_mode eval_mode forward_sample)).
Defined.
(** ** More on the CustomCNN fragment: errors, shapes and composition *)


(** The shape of the value of [forward], with no assumption on the input but
    its number of elements. *)
Lemma forward_value_shape_any {T : Type} {S : Scalar T} (p : CustomCNN.parameters T)
      (x : tensor T) :
  numel x mod 1024 = 0 ->
  exists out, CustomCNN.forward_value (CustomCNN.init p) x = Some out
              /\ shape out = [numel x / 1024; 8].
Proof.
  intros Hmod. unfold CustomCNN.forward_value.
  rewrite (view_batch x Hmod).
  match goal with
  | |- context [Conv2d.forward ?m ?t] =>
      destruct (conv2d_shape m t (numel x / 1024) 32 32 32 32 eq_refl eq_refl eq_refl)
        as [f ->]
  end.
  match goal with
  | |- context [MaxPool2d.forward ?m ?t] =>
      destruct (maxpool2d_shape m t (numel x / 1024) 6 32 32 4 4 eq_refl eq_refl eq_refl)
        as [g ->]
  end.
  match goal with
  | |- context [view ?t [-1; 6 * 4 * 4]] =>
      rewrite (view_flat t (numel x / 1024) eq_refl)
  end.
  match goal with
  | |- context [Linear.forward ?m ?t] =>
      destruct (linear_shape m t (numel x / 1024) eq_refl) as [k ->]
  end.
  eexists. split; reflexivity.
Qed.




Lemma relu_scalar_idempotent {T : Type} {S : Scalar T} {O : ScalarOrder T} (v : T) :
  relu_scalar (relu_scalar v) = relu_scalar v.
Proof.
  unfold relu_scalar at 2 3.
  destruct (sltb v szero) eqn:E.
  - unfold relu_scalar. rewrite sltb_zero_zero. reflexivity.
  - unfold relu_scalar. rewrite E. reflexivity.
Qed.

(** X3. The embedding [forward] returns is a fixed point of [relu]: applying
    [F.relu] to it once more changes nothing. *)
Theorem forward_output_fixed_by_relu {T : Type} {S : Scalar T} {O : ScalarOrder T}
        (self : CustomCNN.t T) (x out : tensor T) (rt rt' : runtime) :
  CustomCNN.forward self x rt = Some (out, rt') ->
  relu out = out.
Proof.
  rewrite forward_runs.
  destruct (CustomCNN.forward_value self x) as [out0|] eqn:E; [|discriminate].
  intros H. injection H as <- _.
  destruct (forward_value_is_relu _ _ _ E) as [y ->].
  unfold relu; simpl. f_equal.
  rewrite map_map. apply map_ext. intros v. apply relu_scalar_idempotent.
Qed.

Lemma forward_output_fixed_by_relu_witness :
  relu {| shape := [1; 8]; data := [0; 0; 25; 1873; 3721; 5569; 7417; 9265] |}
  = {| shape := [1; 8]; data := [0; 0; 25; 1873; 3721; 5569; 7417; 9265] |}.
Proof.
  exact (forward_output_fixed_by_relu
           (CustomCNN.init sample_parameters) sample_image _ eval_mode eval_mode
           forward_sample).
Defined.

(** X4. On a batch (a four-dimensional input), the convolution of the
    network (kernel 5, padding 2, stride 1) keeps the height and the width of
    whatever image it is given, not only 32x32: a batch of one-channel images
    of h x w, with h and w at least 1, becomes a batch of six maps of h x w; a
    batch with another number of channels, or of empty images, is refused.
    (An unbatched input of three dimensions, which nn.Conv2d also takes, is
    outside the model; [forward] never passes one.) *)
Theorem conv1_keeps_spatial_size {T : Type} {S : Scalar T}
        (p : CustomCNN.parameters T) (x : tensor T) (n c h w : Z) :
  shape x = [n; c; h; w] ->
  0 <= n ->
  option_map shape (Conv2d.forward (CustomCNN.conv1 (CustomCNN.init p)) x)
  = if (c =? 1) && (1 <=? h) && (1 <=? w) then Some [n; 6; h; w] else None.
Proof.
  intros Hs _. unfold Conv2d.forward. rewrite Hs.
  cbn [CustomCNN.conv1 CustomCNN.init Conv2d.in_channels Conv2d.out_channels
       Conv2d.kernel_size Conv2d.padding Conv2d.stride].
  destruct (Z.eqb_spec c 1) as [->|Hc]; [|reflexivity].
  unfold Conv2d.out_size.
  change (1 <=? 0) with false. change (5 <=? 0) with false. change (2 <? 0) with false.
  cbn [orb andb].
  destruct (Z.leb_spec 1 h) as [Hh|Hh]; destruct (Z.ltb_spec (h + 2 * 2) 5) as [Hh'|Hh'];
    try lia; [|reflexivity].
  destruct (Z.leb_spec 1 w) as [Hw|Hw]; destruct (Z.ltb_spec (w + 2 * 2) 5) as [Hw'|Hw'];
    try lia; [|reflexivity].
  cbn [option_map tabulate shape].
  rewrite !Z.div_1_r.
  replace (h + 2 * 2 - 5 + 1) with h by lia.
  replace (w + 2 * 2 - 5 + 1) with w by lia.
  reflexivity.
Qed.

Lemma conv1_keeps_spatial_size_witness :
  option_map shape
    (Conv2d.forward (CustomCNN.conv1 (CustomCNN.init fin_parameters)) wide_images)
  = Some [2; 6; 40; 56].
Proof.
  exact (conv1_keeps_spatial_size fin_parameters wide_images 2 1 40 56
           eq_refl ltac:(lia)).
Defined.

(** X5. On a batch (a four-dimensional input) with at least one channel, the
    pooling of the network (kernel 8, stride 8) divides the height and the
    width by 8, rounding down, whatever the number of channels; it refuses
    maps lower or narrower than 8.  (An unbatched input of three dimensions,
    which nn.MaxPool2d also takes, is outside the model; [forward] never
    passes one.) *)
Theorem pool_divides_size_by_eight {T : Type} {S : Scalar T}
        (p : CustomCNN.parameters T) (x : tensor T) (n c h w : Z) :
  shape x = [n; c; h; w] ->
  0 <= n ->
  1 <= c ->
  option_map shape (MaxPool2d.forward (CustomCNN.pool (CustomCNN.init p)) x)
  = if (8 <=? h) && (8 <=? w) then Some [n; c; h / 8; w / 8] else None.
Proof.
  intros Hs _ _. unfold MaxPool2d.forward. rewrite Hs.
  cbn [CustomCNN.pool CustomCNN.init MaxPool2d.kernel_size MaxPool2d.stride].
  unfold MaxPool2d.out_size.
  change (8 <=? 0) with false. cbn [orb].
  destruct (Z.leb_spec 8 h) as [Hh|Hh]; destruct (Z.ltb_spec h 8) as [Hh'|Hh'];
    try lia; [|reflexivity].
  destruct (Z.leb_spec 8 w) as [Hw|Hw]; destruct (Z.ltb_spec w 8) as [Hw'|Hw'];
    try lia; [|reflexivity].
  cbn [option_map tabulate shape andb].
  replace ((h - 8) / 8 + 1) with (h / 8).
  2:{ replace h with ((h - 8) + 1 * 8) at 1 by lia. rewrite Z.div_add by lia. reflexivity. }
  replace ((w - 8) / 8 + 1) with (w / 8).
  2:{ replace w with ((w - 8) + 1 * 8) at 1 by lia. rewrite Z.div_add by lia. reflexivity. }
  reflexivity.
Qed.

Lemma pool_divides_size_by_eight_witness :
  option_map shape
    (MaxPool2d.forward (CustomCNN.pool (CustomCNN.init fin_parameters)) wide_images)
  = Some [2; 1; 5; 7].
Proof.
  exact (pool_divides_size_by_eight fin_parameters wide_images 2 1 40 56
           eq_refl ltac:(lia) ltac:(lia)).
Defined.

(** *** [view] keeps what a tensor holds *)

Lemma filter_holes_nil (spec : list Z) :
  filter (fun d => d =? -1) spec = [] ->
  filter (fun d => negb (d =? -1)) spec = spec.
Proof.
  induction spec as [|d spec IH]; simpl; [reflexivity|].
  destruct (d =? -1); simpl; [discriminate|].
  intros H. rewrite (IH H). reflexivity.
Qed.

Lemma numel_of_cons (d : Z) (sh : list Z) : numel_of (d :: sh) = d * numel_of sh.
Proof. reflexivity. Qed.

Lemma numel_of_fill (q : Z) (spec : list Z) :
  numel_of (map (fun d => if d =? -1 then q else d) spec)
  = q ^ Z.of_nat (List.length (filter (fun d => d =? -1) spec))
    * numel_of (filter (fun d => negb (d =? -1)) spec).
Proof.
  induction spec as [|d spec IH]; [reflexivity|].
  cbn [map filter]. rewrite numel_of_cons, IH.
  destruct (d =? -1); cbn [negb].
  - cbn [List.length]. rewrite Nat2Z.inj_succ, Z.pow_succ_r by lia. ring.
  - rewrite numel_of_cons. ring.
Qed.

Lemma infer_size_numel (spec : list Z) (n : Z) (sh : list Z) :
  infer_size spec n = Some sh -> numel_of sh = n.
Proof.
  unfold infer_size.
  destruct (existsb (fun d => d <? -1) spec); [discriminate|].
  destruct (filter (fun d => d =? -1) spec) as [|h [|h' l]] eqn:Eh.
  - rewrite (filter_holes_nil spec Eh).
    destruct (Z.eqb_spec (numel_of spec) n) as [E|E]; [|discriminate].
    intros H. injection H as <-. exact E.
  - set (p := numel_of (filter (fun d => negb (d =? -1)) spec)).
    destruct (Z.eqb_spec p 0) as [Ep|Ep]; [discriminate|].
    destruct (Z.eqb_spec (n mod p) 0) as [Em|Em]; [|discriminate].
    intros H. injection H as <-.
    rewrite numel_of_fill, Eh. fold p.
    cbn [List.length]. change (Z.of_nat 1) with 1. rewrite Z.pow_1_r.
    rewrite Z.mul_comm. symmetry. apply Z_div_exact_full_2; assumption.
  - discriminate.
Qed.

Lemma infer_size_nonneg (spec : list Z) (n : Z) (sh : list Z) :
  0 <= n ->
  infer_size spec n = Some sh -> Forall (fun d => 0 <= d) sh.
Proof.
  intros Hn. unfold infer_size.
  destruct (existsb (fun d => d <? -1) spec) eqn:Ex; [discriminate|].
  assert (Hge : Forall (fun d => -1 <= d) spec).
  { apply Forall_forall. intros d Hd.
    destruct (Z.ltb_spec d (-1)) as [Hlt|Hge]; [|exact Hge].
    assert (Ht : existsb (fun d => d <? -1) spec = true).
    { apply existsb_exists. exists d. split; [exact Hd|]. apply Z.ltb_lt. exact Hlt. }
    rewrite Ht in Ex. discriminate Ex. }
  assert (Hrest : Forall (fun d => 0 <= d) (filter (fun d => negb (d =? -1)) spec)).
  { apply Forall_forall. intros d Hd. apply filter_In in Hd. destruct Hd as [Hd Hne].
    rewrite Forall_forall in Hge. specialize (Hge d Hd).
    destruct (Z.eqb_spec d (-1)); [discriminate|]. lia. }
  destruct (filter (fun d => d =? -1) spec) as [|h [|h' l]] eqn:Eh.
  - rewrite (filter_holes_nil spec Eh) in *.
    destruct (numel_of spec =? n); [|discriminate].
    intros H. injection H as <-. exact Hrest.
  - set (p := numel_of (filter (fun d => negb (d =? -1)) spec)).
    assert (Hp : 0 <= p) by (apply numel_of_nonneg, Hrest).
    destruct (Z.eqb_spec p 0) as [Ep|Ep]; [discriminate|].
    destruct (n mod p =? 0); [|discriminate].
    intros H. injection H as <-.
    apply Forall_forall. intros d Hd. apply in_map_iff in Hd.
    destruct Hd as (d0 & <- & Hd0).
    rewrite Forall_forall in Hge. specialize (Hge d0 Hd0).
    destruct (Z.eqb_spec d0 (-1)); [|lia].
    apply Z.div_pos; lia.
  - discriminate.
Qed.

(** X6. A successful [view] only relabels: the elements and their order are
    unchanged, the number of elements the new shape stands for is that of the
    old one, and a well-formed tensor stays well formed (no size of the new
    shape is negative, the inferred one included). *)
Theorem view_keeps_elements {T : Type} (x y : tensor T) (spec : list Z) :
  view x spec = Some y ->
  data y = data x /\ numel y = numel x /\ (wf x -> wf y).
Proof.
  unfold view.
  destruct (infer_size spec (numel x)) as [sh|] eqn:E; [|discriminate].
  intros H. injection H as <-.
  pose proof (infer_size_numel _ _ _ E) as Hn.
  split; [reflexivity|]. split; [exact Hn|].
  intros [Hpos Hlen]. split.
  - apply (infer_size_nonneg spec (numel x)); [|exact E].
    apply numel_of_nonneg, Hpos.
  - unfold numel at 1. simpl. rewrite Hn. exact Hlen.
Qed.

Lemma view_keeps_elements_witness :
  view sample_image [-1; 1; 32; 32]
  = Some {| shape := [1; 1; 32; 32]; data := data sample_image |}
  /\ numel {| shape := [1; 1; 32; 32]; data := data sample_image |} = numel sample_image.
Proof.
  assert (E : view sample_image [-1; 1; 32; 32]
              = Some {| shape := [1; 1; 32; 32]; data := data sample_image |})
    by reflexivity.
  split; [exact E|].
  exact (proj1 (proj2 (view_keeps_elements sample_image _ _ E))).
Defined.

(** *** [relu] and the pooling *)

Lemma fold_left_related {A B K : Type} (R : A -> B -> Prop) (f : A -> K -> A)
      (g : B -> K -> B) (l : list K) :
  (forall a b k, In k l -> R a b -> R (f a k) (g b k)) ->
  forall a b, R a b -> R (fold_left f l a) (fold_left g l b).
Proof.
  induction l as [|k l IH]; intros Hstep a b Hab; [exact Hab|].
  simpl. apply IH.
  - intros a' b' k' Hin. apply Hstep. right. exact Hin.
  - apply Hstep; [left; reflexivity | exact Hab].
Qed.

(** Two loops over the same range whose bodies keep a relation between
    their accumulators end with related accumulators. *)
Lemma fold_range_related {A B : Type} (R : A -> B -> Prop) (n : Z)
      (f : Z -> A -> A) (g : Z -> B -> B) (a : A) (b : B) :
  R a b ->
  (forall k a b, 0 <= k < n -> R a b -> R (f k a) (g k b)) ->
  R (fold_range n f a) (fold_range n g b).
Proof.
  intros Hab Hstep. unfold fold_range.
  apply (fold_left_related R); [|exact Hab].
  intros a' b' k Hin. apply Hstep.
  apply in_seq in Hin. lia.
Qed.


Lemma item_relu_zero {T : Type} {S : Scalar T} (c : tensor T) (k : Z) :
  relu_scalar szero = szero ->
  item (relu c) k = relu_scalar (item c k).
Proof.
  intros Hz. unfold item, relu; simpl.
  rewrite <- Hz at 1. apply map_nth.
Qed.

Lemma relu_passes_step_Z : relu_passes_step Z.
Proof.
  split; [reflexivity|].
  intros m v. unfold relu_scalar. cbn [sltb sisnan szero Z_scalar].
  rewrite !orb_false_r.
  destruct (Z.ltb_spec m 0); destruct (Z.ltb_spec v 0); destruct (Z.ltb_spec m v);
    repeat match goal with
           | |- context [?a <? ?b] => destruct (Z.ltb_spec a b)
           end; lia.
Qed.

Lemma relu_passes_step_fnum : relu_passes_step fnum.
Proof.
  split; [reflexivity|].
  intros [|m] [|v].
  - reflexivity.
  - unfold relu_scalar. cbn [sltb sisnan szero fnum_scalar fnum_cmp orb].
    destruct (v <? 0); reflexivity.
  - unfold relu_scalar. cbn [sltb sisnan szero fnum_scalar fnum_cmp orb].
    destruct (m <? 0); reflexivity.
  - unfold relu_scalar. cbn [sltb sisnan szero fnum_scalar fnum_cmp].
    destruct (Z.ltb_spec m 0); destruct (Z.ltb_spec v 0); destruct (Z.ltb_spec m v);
      cbn [fnum_cmp orb];
      repeat match goal with
             | |- context [?a <? ?b] => destruct (Z.ltb_spec a b)
             end;
      cbn [orb]; first [reflexivity | lia | f_equal; lia].
Qed.

Lemma step_relu {T : Type} {S : Scalar T} (H : relu_passes_step T) (v : T) (acc : option T) :
  MaxPool2d.step (relu_scalar v) (option_map relu_scalar acc)
  = option_map relu_scalar (MaxPool2d.step v acc).
Proof.
  destruct acc as [m|]; simpl; [|reflexivity].
  f_equal. symmetry. apply H.
Qed.

Lemma maxpool2d_relu {T : Type} {S : Scalar T} (H : relu_passes_step T)
      (m : MaxPool2d.t) (c : tensor T) :
  MaxPool2d.forward m (relu c) = option_map relu (MaxPool2d.forward m c).
Proof.
  unfold MaxPool2d.forward.
  change (shape (relu c)) with (shape c).
  destruct (shape c) as [|n [|ch [|h [|w [|]]]]]; try reflexivity.
  destruct (MaxPool2d.out_size h (MaxPool2d.kernel_size m) (MaxPool2d.stride m)) as [h'|];
    [|reflexivity].
  destruct (MaxPool2d.out_size w (MaxPool2d.kernel_size m) (MaxPool2d.stride m)) as [w'|];
    [|reflexivity].
  cbn [option_map]. f_equal.
  unfold relu, tabulate. cbn [shape data]. f_equal.
  rewrite map_map. apply map_ext. intros k.
  match goal with
  | |- match ?l with Some _ => _ | None => _ end
       = relu_scalar (match ?r with Some _ => _ | None => _ end) =>
      assert (E : l = option_map relu_scalar r)
  end.
  { apply (fold_range_related (fun a b => a = option_map relu_scalar b)); [reflexivity|].
    intros ky a b _ ->.
    apply (fold_range_related (fun a b => a = option_map relu_scalar b)); [reflexivity|].
    intros kx a' b' _ ->.
    rewrite (item_relu_zero c _ (proj1 H)). apply step_relu, H. }
  rewrite E.
  match goal with
  | |- context [option_map relu_scalar ?r] => destruct r
  end; simpl; [reflexivity|].
  symmetry. apply H.
Qed.

(** X7. [relu] and the max pooling commute, for exact numbers and for
    numbers with a NaN alike: pooling the rectified maps, as [forward] does,
    gives the rectified pooled maps, element for element, and fails on the
    same inputs. *)
Theorem relu_commutes_with_pool (m : MaxPool2d.t) (c : tensor fnum) (c' : tensor Z) :
  MaxPool2d.forward m (relu c) = option_map relu (MaxPool2d.forward m c)
  /\ MaxPool2d.forward m (relu c') = option_map relu (MaxPool2d.forward m c').
Proof.
  split.
  - apply maxpool2d_relu, relu_passes_step_fnum.
  - apply maxpool2d_relu, relu_passes_step_Z.
Qed.

(** *** Rows of a batch do not mix *)

(** Linear arithmetic with quotients and remainders by constants. *)
Ltac divmod := Z.div_mod_to_equations; lia.

Lemma nth_tabulated {T : Type} (g : Z -> T) (n k : Z) (d : T) :
  0 <= k < n ->
  nth (Z.to_nat k) (map (fun i => g (Z.of_nat i)) (seq 0 (Z.to_nat n))) d = g k.
Proof.
  intros Hk.
  rewrite (nth_indep _ d (g (Z.of_nat 0))).
  2:{ rewrite length_map, length_seq. lia. }
  rewrite (map_nth (fun i => g (Z.of_nat i)) (seq 0 (Z.to_nat n)) 0%nat).
  rewrite seq_nth by lia. simpl. rewrite Z2Nat.id by lia. reflexivity.
Qed.

Lemma item_tabulate {T : Type} {S : Scalar T} (sh : list Z) (f : Z -> T) (k : Z) :
  0 <= k < numel_of sh -> item (tabulate sh f) k = f k.
Proof. intros Hk. unfold item, tabulate; simpl. apply nth_tabulated, Hk. Qed.

Lemma item_relu_tabulate {T : Type} {S : Scalar T} (sh : list Z) (f : Z -> T) (k : Z) :
  0 <= k < numel_of sh -> item (relu (tabulate sh f)) k = relu_scalar (f k).
Proof.
  intros Hk. unfold item, relu, tabulate; simpl. rewrite map_map.
  apply (nth_tabulated (fun i => relu_scalar (f i))), Hk.
Qed.


Lemma some_eq {A : Type} (a b : A) : Some a = Some b -> a = b.
Proof. intros H. injection H as H. exact H. Qed.





(** *** What the fragments need from outside *)

(** X9. Neither fragment runs on its own.  The first calls NPE, which
    it never imports; the second uses nn, F, posterior_nn and NPE without
    importing them; every other name is bound before it is read.  Run one after
    the other, the two still leave NPE, nn and F unbound. *)
Theorem snippets_leave_names_unbound :
  unbound_names first_ast = ["NPE"]
  /\ unbound_names second_ast = ["nn"; "F"; "posterior_nn"; "NPE"]
  /\ unbound_names (first_ast ++ second_ast) = ["NPE"; "nn"; "F"].
Proof. conjuncts by_computation. Qed.

(** X10. Two views in a row are the second one alone: what the first made
    of the shape does not matter to the second. *)
Theorem view_after_view {T : Type} (x y : tensor T) (spec spec' : list Z) :
  view x spec = Some y ->
  view y spec' = view x spec'.
Proof.
  intros H. destruct (view_keeps_elements x y spec H) as (Hd & Hn & _).
  unfold view. rewrite Hd, Hn. reflexivity.
Qed.

Lemma view_after_view_witness :
  view {| shape := [1; 1; 32; 32]; data := data sample_image |} [-1; 64; 16]
  = view sample_image [-1; 64; 16].
Proof.
  apply (view_after_view sample_image _ [-1; 1; 32; 32]). reflexivity.
Defined.

(** *** A NaN among the parameters *)

Lemma linear_item {T : Type} {S : Scalar T} (p : CustomCNN.parameters T)
      (x y : tensor T) (n b j : Z) :
  shape x = [n; 96] ->
  Linear.forward (CustomCNN.fc (CustomCNN.init p)) x = Some y ->
  0 <= b < n -> 0 <= j < 8 ->
  item (relu y) (b * 8 + j)
  = relu_scalar
      (fold_range 96
         (fun i acc => sadd acc (smul (CustomCNN.fc_weight p j i) (item x (b * 96 + i))))
         (CustomCNN.fc_bias p j)).
Proof.
  intros Hs Hy Hb Hj.
  unfold Linear.forward in Hy. rewrite Hs in Hy.
  cbn [CustomCNN.fc CustomCNN.init Linear.in_features Linear.out_features
       Linear.weight Linear.bias] in Hy.
  change (96 =? 6 * 4 * 4) with true in Hy.
  cbv beta iota zeta in Hy.
  apply some_eq in Hy. subst y.
  rewrite (item_relu_tabulate [n; 8]) by (unfold numel_of; simpl; lia).
  replace ((b * 8 + j) mod 8) with j by divmod.
  replace ((b * 8 + j) / 8) with b by divmod.
  reflexivity.
Qed.

Lemma fold_range_nan (n : Z) (g : Z -> fnum) :
  fold_range n (fun i acc => sadd acc (g i)) nan = nan.
Proof.
  apply (fold_range_related (fun (a : fnum) (_ : unit) => a = nan) n
           (fun i acc => sadd acc (g i)) (fun _ u => u) nan tt); [reflexivity|].
  intros k a u _ ->. reflexivity.
Qed.

(** X11. A NaN bias in the linear layer poisons its output feature for
    every input: if the bias of feature j is NaN, then component j of every
    row of the embedding is NaN, whatever the images and the other
    parameters. *)
Theorem nan_bias_poisons_feature (p : CustomCNN.parameters fnum) (x : tensor fnum)
        (rt : runtime) (b j : Z) :
  numel x mod 1024 = 0 ->
  0 <= b < numel x / 1024 ->
  0 <= j < 8 ->
  CustomCNN.fc_bias p j = nan ->
  exists out,
    CustomCNN.forward (CustomCNN.init p) x rt = Some (out, rt)
    /\ item out (b * 8 + j) = nan.
Proof.
  intros Hmod Hb Hj Hnan.
  destruct (forward_value_shape_any p x Hmod) as (out & Hv & _).
  exists out. rewrite forward_runs, Hv. split; [reflexivity|].
  unfold CustomCNN.forward_value in Hv.
  rewrite (view_batch x Hmod) in Hv.
  match type of Hv with
  | context [Conv2d.forward ?m ?t] =>
      destruct (conv2d_shape m t (numel x / 1024) 32 32 32 32 eq_refl eq_refl eq_refl)
        as [f Hf]; rewrite Hf in Hv
  end.
  match type of Hv with
  | context [MaxPool2d.forward ?m ?t] =>
      destruct (maxpool2d_shape m t (numel x / 1024) 6 32 32 4 4 eq_refl eq_refl eq_refl)
        as [g Hg]; rewrite Hg in Hv
  end.
  match type of Hv with
  | context [view ?t [-1; 6 * 4 * 4]] =>
      rewrite (view_flat t (numel x / 1024) eq_refl) in Hv
  end.
  match type of Hv with
  | context [Linear.forward ?m ?t] =>
      destruct (Linear.forward m t) as [y|] eqn:Hy; [|discriminate];
      pose proof (linear_item p t y (numel x / 1024) b j eq_refl Hy Hb Hj) as Hitem
  end.
  apply some_eq in Hv. subst out.
  rewrite Hitem.
  rewrite Hnan, fold_range_nan. reflexivity.
Qed.

Lemma nan_bias_poisons_feature_witness :
  exists out,
    CustomCNN.forward (CustomCNN.init nan_bias_parameters) zero_image train_mode
    = Some (out, train_mode)
    /\ item out (0 * 8 + 3) = nan.
Proof.
  apply nan_bias_poisons_feature.
  - vm_compute. reflexivity.
  - vm_compute. split; [discriminate | reflexivity].
  - lia.
  - reflexivity.
Defined.

(** *** A NaN among the pixels *)

Lemma fold_left_keeps {A K : Type} (P : A -> Prop) (f : A -> K -> A) (l : list K) :
  (forall a k, In k l -> P a -> P (f a k)) ->
  forall a, P a -> P (fold_left f l a).
Proof.
  induction l as [|k l IH]; intros Hkeep a Ha; [exact Ha|].
  simpl. apply IH.
  - intros a' k' Hin. apply Hkeep. right. exact Hin.
  - apply Hkeep; [left; reflexivity | exact Ha].
Qed.

Lemma fold_left_absorbs {A K : Type} (P : A -> Prop) (f : A -> K -> A) (l : list K)
      (k0 : K) :
  In k0 l ->
  (forall a, P (f a k0)) ->
  (forall a k, In k l -> P a -> P (f a k)) ->
  forall a, P (fold_left f l a).
Proof.
  induction l as [|k l IH]; intros Hin Hhit Hkeep a; [contradiction|].
  simpl. destruct Hin as [->|Hin].
  - apply fold_left_keeps; [|apply Hhit].
    intros a' k' Hin'. apply Hkeep. right. exact Hin'.
  - apply IH; [exact Hin | exact Hhit |].
    intros a' k' Hin'. apply Hkeep. right. exact Hin'.
Qed.

(** A loop whose body establishes [P] at one index of its range, and keeps it
    at every index, ends with [P]. *)
Lemma fold_range_absorbs {A : Type} (P : A -> Prop) (n : Z) (f : Z -> A -> A)
      (k0 : Z) (a : A) :
  0 <= k0 < n ->
  (forall a, P (f k0 a)) ->
  (forall k a, 0 <= k < n -> P a -> P (f k a)) ->
  P (fold_range n f a).
Proof.
  intros Hk Hhit Hkeep. unfold fold_range.
  apply (fold_left_absorbs P _ _ (Z.to_nat k0)).
  - apply in_seq. lia.
  - intros a'. rewrite Z2Nat.id by lia. apply Hhit.
  - intros a' k Hin. apply Hkeep. apply in_seq in Hin. lia.
Qed.

Lemma sadd_nan_l (v : fnum) : sadd nan v = nan.
Proof. reflexivity. Qed.

Lemma sadd_nan_r (a : fnum) : sadd a nan = nan.
Proof. destruct a; reflexivity. Qed.

Lemma smul_nan_r (a : fnum) : smul a nan = nan.
Proof. destruct a; reflexivity. Qed.

Lemma step_nan (acc : option fnum) : MaxPool2d.step nan acc = Some nan.
Proof. destruct acc as [[|m]|]; reflexivity. Qed.

Lemma step_keeps_nan (v : fnum) : MaxPool2d.step v (Some nan) = Some nan.
Proof. destruct v; reflexivity. Qed.

Lemma conv1_item {T : Type} {S : Scalar T} (p : CustomCNN.parameters T)
      (x c : tensor T) (n b m : Z) :
  shape x = [n; 1; 32; 32] ->
  Conv2d.forward (CustomCNN.conv1 (CustomCNN.init p)) x = Some c ->
  0 <= b < n -> 0 <= m < 6144 ->
  shape c = [n; 6; 32; 32]
  /\ item (relu c) (b * 6144 + m)
     = relu_scalar
         (fold_range 1
            (fun i acc =>
               fold_range 5
                 (fun ky acc =>
                    fold_range 5
                      (fun kx acc =>
                         sadd acc
                           (smul (CustomCNN.conv1_weight p (m / 1024) i ky kx)
                              (Conv2d.padded x 1 32 32 b i
                                 ((m / 32) mod 32 * 1 + ky - 2)
                                 (m mod 32 * 1 + kx - 2))))
                      acc)
                 acc)
            (CustomCNN.conv1_bias p (m / 1024))).
Proof.
  intros Hs Hc Hb Hm.
  unfold Conv2d.forward in Hc. rewrite Hs in Hc.
  cbn [CustomCNN.conv1 CustomCNN.init Conv2d.in_channels Conv2d.out_channels
       Conv2d.kernel_size Conv2d.padding Conv2d.stride Conv2d.weight Conv2d.bias] in Hc.
  change (1 =? 1) with true in Hc.
  change (Conv2d.out_size 32 5 2 1) with (Some 32) in Hc.
  cbv beta iota zeta in Hc.
  apply some_eq in Hc. subst c.
  split; [reflexivity|].
  rewrite (item_relu_tabulate [n; 6; 32; 32]) by (unfold numel_of; simpl; lia).
  change (6 * 32 * 32) with 6144. change (32 * 32) with 1024.
  replace (((b * 6144 + m) / 1024) mod 6) with (m / 1024) by divmod.
  replace ((b * 6144 + m) / 6144) with b by divmod.
  replace (((b * 6144 + m) / 32) mod 32) with ((m / 32) mod 32) by divmod.
  replace ((b * 6144 + m) mod 32) with (m mod 32) by divmod.
  reflexivity.
Qed.

Lemma pool_item {T : Type} {S : Scalar T} (p : CustomCNN.parameters T)
      (r z : tensor T) (n b m : Z) :
  shape r = [n; 6; 32; 32] ->
  MaxPool2d.forward (CustomCNN.pool (CustomCNN.init p)) r = Some z ->
  0 <= b < n -> 0 <= m < 96 ->
  shape z = [n; 6; 4; 4]
  /\ item z (b * 96 + m)
     = match
         fold_range 8
           (fun ky acc =>
              fold_range 8
                (fun kx acc =>
                   MaxPool2d.step
                     (item r (((b * 6 + m / 16) * 32 + ((m / 4) mod 4 * 8 + ky)) * 32
                              + (m mod 4 * 8 + kx))) acc)
                acc)
           None
       with
       | Some v => v
       | None => szero
       end.
Proof.
  intros Hs Hz Hb Hm.
  unfold MaxPool2d.forward in Hz. rewrite Hs in Hz.
  cbn [CustomCNN.pool CustomCNN.init MaxPool2d.kernel_size MaxPool2d.stride] in Hz.
  change (MaxPool2d.out_size 32 8 8) with (Some 4) in Hz.
  cbv beta iota zeta in Hz.
  apply some_eq in Hz. subst z.
  split; [reflexivity|].
  rewrite (item_tabulate [n; 6; 4; 4]) by (unfold numel_of; simpl; lia).
  change (6 * 4 * 4) with 96. change (4 * 4) with 16.
  replace ((b * 96 + m) / 96) with b by divmod.
  replace (((b * 96 + m) / 16) mod 6) with (m / 16) by divmod.
  replace (((b * 96 + m) / 4) mod 4) with ((m / 4) mod 4) by divmod.
  replace ((b * 96 + m) mod 4) with (m mod 4) by divmod.
  reflexivity.
Qed.

(** X12. A single NaN pixel poisons the whole row: if any element of image b
    is NaN, every component of row b of the embedding is NaN, whatever the
    parameters (a NaN times any weight, zero included, is NaN). *)
Theorem nan_pixel_poisons_row (p : CustomCNN.parameters fnum) (x : tensor fnum)
        (rt : runtime) (b m0 j : Z) :
  numel x mod 1024 = 0 ->
  0 <= b < numel x / 1024 ->
  0 <= m0 < 1024 ->
  item x (b * 1024 + m0) = nan ->
  0 <= j < 8 ->
  exists out,
    CustomCNN.forward (CustomCNN.init p) x rt = Some (out, rt)
    /\ item out (b * 8 + j) = nan.
Proof.
  intros Hmod Hb Hm0 Hnan Hj.
  destruct (forward_value_shape_any p x Hmod) as (out & Hv & _).
  exists out. rewrite forward_runs, Hv. split; [reflexivity|].
  unfold CustomCNN.forward_value in Hv.
  rewrite (view_batch x Hmod) in Hv.
  set (x1 := {| shape := [numel x / 1024; 1; 32; 32]; data := data x |}) in *.
  destruct (Conv2d.forward (CustomCNN.conv1 (CustomCNN.init p)) x1) as [c|] eqn:Hc;
    [|discriminate].
  (* the convolution is NaN at the pixel, in the first map *)
  destruct (conv1_item p x1 c (numel x / 1024) b m0 eq_refl Hc Hb ltac:(lia))
    as (Hsc & Hconv).
  assert (Hc0 : item (relu c) (b * 6144 + m0) = nan).
  { rewrite Hconv.
    match goal with
    | |- relu_scalar ?v = nan => assert (E : v = nan); [|rewrite E; reflexivity]
    end.
    apply (fold_range_absorbs (fun a => a = nan) 1 _ 0); [lia | |].
    - intros a.
      apply (fold_range_absorbs (fun a => a = nan) 5 _ 2); [lia | |].
      + intros a'.
        apply (fold_range_absorbs (fun a => a = nan) 5 _ 2); [lia | |].
        * intros a''. unfold Conv2d.padded.
          replace ((m0 / 32) mod 32 * 1 + 2 - 2) with (m0 / 32) by divmod.
          replace (m0 mod 32 * 1 + 2 - 2) with (m0 mod 32) by divmod.
          replace ((0 <=? m0 / 32) && (m0 / 32 <? 32)
                   && (0 <=? m0 mod 32) && (m0 mod 32 <? 32)) with true.
          2:{ symmetry. rewrite !andb_true_iff, !Z.leb_le, !Z.ltb_lt. divmod. }
          replace (((b * 1 + 0) * 32 + m0 / 32) * 32 + m0 mod 32)
            with (b * 1024 + m0) by divmod.
          change (item x1 (b * 1024 + m0)) with (item x (b * 1024 + m0)).
          rewrite Hnan, smul_nan_r. apply sadd_nan_r.
        * intros k a'' _ ->. apply sadd_nan_l.
      + intros k a' _ ->.
        apply (fold_range_related (fun (u : fnum) (_ : unit) => u = nan) 5
                 _ (fun _ u => u) nan tt); [reflexivity|].
        intros k' u v _ ->. apply sadd_nan_l.
    - intros k a Hk ->.
      apply (fold_range_related (fun (u : fnum) (_ : unit) => u = nan) 5
               _ (fun _ u => u) nan tt); [reflexivity|].
      intros k' u v _ ->.
      apply (fold_range_related (fun (u : fnum) (_ : unit) => u = nan) 5
               _ (fun _ u => u) nan tt); [reflexivity|].
      intros k'' u' v' _ ->. apply sadd_nan_l. }
  destruct (MaxPool2d.forward (CustomCNN.pool (CustomCNN.init p)) (relu c)) as [z|] eqn:Hz;
    [|discriminate].
  (* so is the pooled value of its window *)
  set (mz := m0 / 32 / 8 * 4 + m0 mod 32 / 8).
  assert (Hmz : 0 <= mz < 16) by (unfold mz; divmod).
  destruct (pool_item p (relu c) z (numel x / 1024) b mz Hsc Hz Hb ltac:(lia))
    as (Hsz & Hpool).
  assert (Hz0 : item z (b * 96 + mz) = nan).
  { rewrite Hpool.
    match goal with
    | |- match ?l with Some _ => _ | None => _ end = nan =>
        assert (E : l = Some nan); [|rewrite E; reflexivity]
    end.
    apply (fold_range_absorbs (fun a => a = Some nan) 8 _ (m0 / 32 mod 8)); [divmod | |].
    - intros a.
      apply (fold_range_absorbs (fun a => a = Some nan) 8 _ (m0 mod 32 mod 8)); [divmod | |].
      + intros a'.
        replace (((b * 6 + mz / 16) * 32 + ((mz / 4) mod 4 * 8 + m0 / 32 mod 8)) * 32
                 + (mz mod 4 * 8 + m0 mod 32 mod 8))
          with (b * 6144 + m0) by (unfold mz; divmod).
        rewrite Hc0. apply step_nan.
      + intros k a' _ ->. apply step_keeps_nan.
    - intros k a _ ->.
      apply (fold_range_related (fun (u : option fnum) (_ : unit) => u = Some nan) 8
               _ (fun _ u => u) (Some nan) tt); [reflexivity|].
      intros k' u v _ ->. apply step_keeps_nan. }
  rewrite (view_flat z _ Hsz) in Hv.
  set (x3 := {| shape := [numel x / 1024; 96]; data := data z |}) in *.
  destruct (Linear.forward (CustomCNN.fc (CustomCNN.init p)) x3) as [y|] eqn:Hy;
    [|discriminate].
  apply some_eq in Hv. subst out.
  rewrite (linear_item p x3 y (numel x / 1024) b j eq_refl Hy Hb Hj).
  match goal with
  | |- relu_scalar ?v = nan => assert (E : v = nan); [|rewrite E; reflexivity]
  end.
  apply (fold_range_absorbs (fun a => a = nan) 96 _ mz); [lia | |].
  - intros a. change (item x3 (b * 96 + mz)) with (item z (b * 96 + mz)).
    rewrite Hz0, smul_nan_r. apply sadd_nan_r.
  - intros k a _ ->. apply sadd_nan_l.
Qed.

Lemma nan_pixel_poisons_row_witness :
  exists out,
    CustomCNN.forward (CustomCNN.init fin_parameters) nan_pixel_image eval_mode
    = Some (out, eval_mode)
    /\ item out (0 * 8 + 5) = nan.
Proof.
  apply (nan_pixel_poisons_row fin_parameters nan_pixel_image eval_mode 0 500 5).
  - vm_compute. reflexivity.
  - vm_compute. split; [discriminate | reflexivity].
  - lia.
  - vm_compute. reflexivity.
  - lia.
Defined.
